(** * sacrumcor: the Streamlit chat page [src/app.py]

    A shallow embedding of the one script of the repository.  The script is
    re-executed by Streamlit on every interaction; one execution of [main]
    is a _pass_.  What a pass can observe and change is

    - the process environment ([os.getenv]), a finite map from names to
      values;
    - [st.session_state], the two attributes [messages] and [model_config]
      which survive from pass to pass;
    - the widgets: what the user typed, picked and clicked in this pass;
    - the hosted completion API behind [client.messages.create].

    What a pass does is recorded as a list of events (elements drawn, API
    calls made), next to the final session state and the way the script
    ended (normally or with a Python exception). *)

From Stdlib Require Import ZArith QArith Ascii String List Lia.
From stdpp Require Import base option list gmap strings.

Local Open Scope string_scope.
Local Open Scope Z_scope.

(** ** Python values used by the script *)

Module Py.

(** Instances of [Exception] the script can meet.  [LibraryError] stands for
    whatever the API client library raises (its API status, connection and
    timeout errors all derive from [Exception]). *)
Inductive Exception : Type :=
  | ValueError (msg : string)
  | IndexError (msg : string)
  | AttributeError (msg : string)
  | LibraryError (cls msg : string).

(** Everything that can unwind the script.  Streamlit's [RerunException]
    derives from [BaseException] directly, so [except Exception] does not
    catch it. *)
Inductive BaseException : Type :=
  | Exc (e : Exception)
  | RerunException.

(** [str(e)] *)
Definition str_exc (e : Exception) : string :=
  match e with
  | ValueError m | IndexError m | AttributeError m | LibraryError _ m => m
  end.

(** [repr] of a [str], for text without quotes or escapes. *)
Definition quote (s : string) : string := "'" ++ s ++ "'".

(** *** [str.split(sep)] for a one-character separator *)

Fixpoint split_acc (sep : ascii) (cur : string) (s : string) : list string :=
  match s with
  | EmptyString => [String.rev cur]
  | String c rest =>
      if Ascii.eqb c sep then String.rev cur :: split_acc sep EmptyString rest
      else split_acc sep (String c cur) rest
  end.

Definition split (sep : ascii) (s : string) : list string :=
  split_acc sep EmptyString s.

(** *** [list.index(x)]: position of the first occurrence *)

Fixpoint find_index (x : string) (l : list string) : option nat :=
  match l with
  | [] => None
  | y :: l' => if String.eqb y x then Some O else S <$> find_index x l'
  end.

Definition index (l : list string) (x : string) : Exception + nat :=
  match find_index x l with
  | Some i => inr i
  | None => inl (ValueError (quote x ++ " is not in list"))
  end.

(** *** [int(s)] on text, base 10

    Surrounding whitespace is dropped, one sign is allowed, and the digits
    may be grouped by single underscores.  Environment values are taken to
    be ASCII text. *)

Definition is_space (c : ascii) : bool :=
  let n := nat_of_ascii c in
  ((9 <=? n) && (n <=? 13) || (28 <=? n) && (n <=? 32))%nat.

Definition digit_of (c : ascii) : option Z :=
  let n := Z.of_nat (nat_of_ascii c) in
  if (48 <=? n) && (n <=? 57) then Some (n - 48) else None.

Fixpoint lstrip (s : string) : string :=
  match s with
  | String c rest => if is_space c then lstrip rest else s
  | EmptyString => s
  end.

Definition strip (s : string) : string :=
  String.rev (lstrip (String.rev (lstrip s))).

(** [digits acc after_digit s]: [after_digit] tells whether the previous
    character was a digit, the only place where an underscore or the end
    of the text is allowed. *)
Fixpoint digits (acc : Z) (after_digit : bool) (s : string) : option Z :=
  match s with
  | EmptyString => if after_digit then Some acc else None
  | String c rest =>
      match digit_of c with
      | Some d => digits (10 * acc + d) true rest
      | None =>
          if Ascii.eqb c "_" && after_digit then digits acc false rest
          else None
      end
  end.

Definition parse_int (s : string) : option Z :=
  match strip s with
  | String "-" rest => Z.opp <$> digits 0 false rest
  | String "+" rest => digits 0 false rest
  | body => digits 0 false body
  end.

Definition int_of_str (s : string) : Exception + Z :=
  match parse_int s with
  | Some n => inr n
  | None =>
      inl (ValueError ("invalid literal for int() with base 10: " ++ quote s))
  end.

End Py.

(** ** Data of the page *)

(** A chat turn, the dict [{"role": ..., "content": ...}]. *)
Record Message : Type := { role : string; content : string }.

(** [st.session_state.model_config]; the temperature is a literal that is
    stored and forwarded, never computed with. *)
Record ModelConfig : Type :=
  { model : string; temperature : Q; max_tokens : Z }.

(** [st.session_state]: an attribute is [None] until it is first assigned. *)
Record SessionState : Type :=
  { messages : option (list Message); model_config : option ModelConfig }.

(** Keyword arguments of [client.messages.create]. *)
Record Request : Type :=
  { req_model : string;
    req_max_tokens : Z;
    req_temperature : Q;
    req_messages : list Message }.

(** A content segment of a response; [text] is missing on segments that are
    not text. *)
Record ContentBlock : Type := { text : option string }.

Record Response : Type := { resp_content : list ContentBlock }.

(** What one call of the completion API does. *)
Inductive ApiOutcome : Type :=
  | Responds (r : Response)
  | Fails (e : Py.Exception).

(** The API, given the key the client was built with and the request. *)
Definition Anthropic : Type := string -> Request -> ApiOutcome.

(** What the user did to the widgets before this pass. *)
Record Widgets : Type :=
  { picked : option nat;      (* entry chosen in the model selectbox *)
    typed : string;           (* content of the text input *)
    clear_clicked : bool }.   (* the clear button was pressed *)

(** What a pass does, in order. *)
Inductive Event : Type :=
  | SidebarTitle (body : string)
  | SidebarSelectbox (label : string) (options : list string) (index : nat)
  | SidebarMarkdown (body : string)
  | SidebarButton (label : string)
  | Title (body : string)
  | TextInput (label key : string)
  | ChatMessageEnter (name : string)
  | ChatMessageExit
  | Markdown (body : string)
  | ErrorBox (body : string)
  | ApiCall (api_key : string) (req : Request).

(** ** The script monad: session state, event log, exceptions

    A raise keeps the session state and the events so far: assignments to
    [st.session_state] made before an exception stay. *)

Inductive Outcome (A : Type) : Type :=
  | Returns (a : A)
  | Raises (e : Py.BaseException).
Arguments Returns {A} a.
Arguments Raises {A} e.

Record Ran (A : Type) : Type :=
  { outcome : Outcome A; session : SessionState; shown : list Event }.
Arguments outcome {A} r.
Arguments session {A} r.
Arguments shown {A} r.

Definition Script (A : Type) : Type := SessionState -> Ran A.

Definition ret {A} (a : A) : Script A :=
  fun s => {| outcome := Returns a; session := s; shown := [] |}.

(** A run that comes after the events [evs]. *)
Definition prepend {A} (evs : list Event) (r : Ran A) : Ran A :=
  {| outcome := outcome r; session := session r; shown := evs ++ shown r |}.

Definition bind {A B} (m : Script A) (k : A -> Script B) : Script B :=
  fun s =>
    let r := m s in
    match outcome r with
    | Returns a => prepend (shown r) (k a (session r))
    | Raises e =>
        {| outcome := Raises e; session := session r; shown := shown r |}
    end.

#[global] Instance Script_ret : MRet Script := @ret.
#[global] Instance Script_bind : MBind Script := fun A B k m => bind m k.

Definition raise {A} (e : Py.BaseException) : Script A :=
  fun s => {| outcome := Raises e; session := s; shown := [] |}.

Definition emit (e : Event) : Script unit :=
  fun s => {| outcome := Returns (); session := s; shown := [e] |}.

Definition get_state : Script SessionState :=
  fun s => {| outcome := Returns s; session := s; shown := [] |}.

Definition put_state (s' : SessionState) : Script unit :=
  fun _ => {| outcome := Returns (); session := s'; shown := [] |}.

Definition lift {A} (r : Py.Exception + A) : Script A :=
  match r with
  | inr a => mret a
  | inl e => raise (Py.Exc e)
  end.

(** [try: body except Exception as e: handler e] *)
Definition try_except {A} (body : Script A) (handler : Py.Exception -> Script A)
  : Script A :=
  fun s =>
    let r := body s in
    match outcome r with
    | Raises (Py.Exc e) => prepend (shown r) (handler e (session r))
    | _ => r
    end.

(** [with ctx: body], where entering and leaving only draw. *)
Definition with_block {A} (enter leave : Event) (body : Script A) : Script A :=
  fun s =>
    let r := body s in
    {| outcome := outcome r; session := session r;
       shown := enter :: shown r ++ [leave] |}.

(** ** The script, function by function *)

Module App.

Section Pass.

(** [os.environ], the widgets as the user left them, and the API. *)
Variable environ : gmap string string.
Variable ui : Widgets.
Variable anthropic : Anthropic.

(** *** Host calls *)

(** [os.getenv(key)] *)
Definition getenv (key : string) : option string := environ !! key.

(** [os.getenv(key, default)] with a [str] default *)
Definition getenv_or (key fallback : string) : string :=
  default fallback (getenv key).

(** [st.session_state.messages] *)
Definition st_messages : Script (list Message) :=
  s ← get_state;
  match messages s with
  | Some l => mret l
  | None =>
      raise (Py.Exc (Py.AttributeError
        "st.session_state has no attribute 'messages'"))
  end.

(** [st.session_state.model_config] *)
Definition st_model_config : Script ModelConfig :=
  s ← get_state;
  match model_config s with
  | Some c => mret c
  | None =>
      raise (Py.Exc (Py.AttributeError
        "st.session_state has no attribute 'model_config'"))
  end.

(** [st.session_state.messages = l] *)
Definition set_messages (l : list Message) : Script unit :=
  s ← get_state;
  put_state {| messages := Some l; model_config := model_config s |}.

(** [st.session_state.model_config = c] *)
Definition set_model_config (c : ModelConfig) : Script unit :=
  s ← get_state;
  put_state {| messages := messages s; model_config := Some c |}.

(** [st.session_state.messages.append(m)] *)
Definition append_message (m : Message) : Script unit :=
  l ← st_messages;
  set_messages (l ++ [m]).

(** [st.sidebar.selectbox(label, options, index=index)]: the entry the user
    picked, the entry at [index] while the widget is untouched. *)
Definition selectbox (label : string) (options : list string) (index : nat)
  : Script string :=
  match options !! index with
  | None =>
      raise (Py.Exc (Py.LibraryError "StreamlitAPIException"
        "Selectbox index must be between 0 and length of options"))
  | Some preselected =>
      emit (SidebarSelectbox label options index);;
      mret (default preselected (picked ui ≫= (options !!.)))
  end.

(** [st.text_input(label, key=key)] *)
Definition text_input (label key : string) : Script string :=
  emit (TextInput label key);;
  mret (typed ui).

(** [st.sidebar.button(label)] *)
Definition button (label : string) : Script bool :=
  emit (SidebarButton label);;
  mret (clear_clicked ui).

(** [with st.chat_message(name): body] *)
Definition chat_message {A} (name : string) (body : Script A) : Script A :=
  with_block (ChatMessageEnter name) ChatMessageExit body.

(** [st.experimental_rerun()] *)
Definition experimental_rerun : Script unit := raise Py.RerunException.

(** *** [initialize_session_state] *)

(** [int(os.getenv('DEFAULT_MAX_TOKENS', 1000))]: the default is the [int]
    1000, which [int] returns as it is; a value that is set is text. *)
Definition default_max_tokens : Py.Exception + Z :=
  match getenv "DEFAULT_MAX_TOKENS" with
  | None => inr 1000
  | Some v => Py.int_of_str v
  end.

Definition initialize_session_state : Script unit :=
  s ← get_state;
  (if messages s is None then set_messages [] else mret ());;
  s ← get_state;
  if model_config s is None then
    let m := getenv_or "DEFAULT_MODEL" "claude-3-opus-20240229" in
    n ← lift default_max_tokens;
    set_model_config {| model := m; temperature := 7 # 10; max_tokens := n |}
  else mret ().

(** *** [sidebar_config] *)

Definition fallback_models : list string :=
  [ "claude-3-opus-20240229";
    "claude-3-sonnet-20240229";
    "claude-3-haiku-20240307" ].

(** [os.getenv('AVAILABLE_MODELS', '').split(',')] with the fallback of
    lines 28-33. *)
Definition model_options : list string :=
  let opts := Py.split "," (getenv_or "AVAILABLE_MODELS" "") in
  if bool_decide (opts = [] \/ opts = [""]) then fallback_models else opts.

Definition sidebar_config : Script unit :=
  emit (SidebarTitle "🤖 LLM Configuration");;
  let options := model_options in
  cfg ← st_model_config;
  i ← lift (Py.index options (model cfg));
  chosen ← selectbox "Select Model" options i;
  cfg ← st_model_config;
  set_model_config
    {| model := chosen; temperature := temperature cfg;
       max_tokens := max_tokens cfg |}.

(** *** [display_chat_history] *)

Fixpoint display_messages (l : list Message) : Script unit :=
  match l with
  | [] => mret ()
  | m :: l' =>
      chat_message (role m) (emit (Markdown (content m)));;
      display_messages l'
  end.

Definition display_chat_history : Script unit :=
  l ← st_messages;
  display_messages l.

(** *** [generate_llm_response] *)

Definition missing_key_reply : string :=
  "API key is required to use the model.".

Definition failure_reply : string :=
  "An error occurred while generating the response.".

(** [response.content[0].text] *)
Definition first_text (r : Response) : Py.Exception + string :=
  match resp_content r with
  | [] => inl (Py.IndexError "list index out of range")
  | b :: _ =>
      match text b with
      | Some t => inr t
      | None => inl (Py.AttributeError "object has no attribute 'text'")
      end
  end.

(** [client.messages.create(...)] on a client built with [api_key] *)
Definition messages_create (api_key : string) (req : Request)
  : Script Response :=
  emit (ApiCall api_key req);;
  match anthropic api_key req with
  | Responds r => mret r
  | Fails e => raise (Py.Exc e)
  end.

(** The body of the [try] of lines 58-76. *)
Definition request_completion (api_key : string) : Script string :=
  l ← st_messages;
  let msgs := (fun m => {| role := role m; content := content m |}) <$> l in
  c1 ← st_model_config;
  c2 ← st_model_config;
  c3 ← st_model_config;
  response ← messages_create api_key
    {| req_model := model c1; req_max_tokens := max_tokens c2;
       req_temperature := temperature c3; req_messages := msgs |};
  lift (first_text response).

(** The parameter [prompt] is not read by the body. *)
Definition generate_llm_response (prompt : string) : Script string :=
  match getenv "ANTHROPIC_API_KEY" with
  | None | Some "" =>
      emit (ErrorBox
        "API key not found. Please set ANTHROPIC_API_KEY in your .env file.");;
      mret missing_key_reply
  | Some api_key =>
      try_except (request_completion api_key)
        (fun e =>
           emit (ErrorBox ("Error generating response: " ++ Py.str_exc e));;
           mret failure_reply)
  end.

(** *** [main] *)

Definition about_panel : string :=
  "
    ---
    ### About This App
    A customizable LLM chat interface built with Streamlit.
    ".

(** Lines 98-118: one submitted turn. *)
Definition submit (prompt : string) : Script unit :=
  append_message {| role := "user"; content := prompt |};;
  chat_message "user" (emit (Markdown prompt));;
  response ← chat_message "assistant"
    (response ← generate_llm_response prompt;
     emit (Markdown response);;
     mret response);
  append_message {| role := "assistant"; content := response |}.

Definition main : Script unit :=
  initialize_session_state;;
  sidebar_config;;
  emit (Title "💬 LLM Chat Interface");;
  display_chat_history;;
  prompt ← text_input "You:" "input";
  (if bool_decide (prompt = "") then mret () else submit prompt);;
  emit (SidebarMarkdown "---");;
  clicked ← button "🗑️ Clear Chat History";
  (if clicked : bool then set_messages [];; experimental_rerun else mret ());;
  emit (SidebarMarkdown about_panel).

End Pass.

End App.

(** ** The host re-running the script

    One pass per interaction; the session state left by a pass, however it
    ended, is the one the next pass starts from. *)

Fixpoint run_passes (environ : gmap string string)
    (passes : list (Widgets * Anthropic)) (s : SessionState) : SessionState :=
  match passes with
  | [] => s
  | (ui, api) :: rest =>
      run_passes environ rest (session (App.main environ ui api s))
  end.

(** The API calls among the events of a pass. *)
Definition api_calls (evs : list Event) : list (string * Request) :=
  evs ≫= fun e => match e with ApiCall k r => [(k, r)] | _ => [] end.

(** The events that draw a chat message. *)
Definition draws_message (e : Event) : bool :=
  match e with
  | ChatMessageEnter _ | ChatMessageExit | Markdown _ => true
  | _ => false
  end.

(** What [display_chat_history] draws for a conversation. *)
Definition history_events (l : list Message) : list Event :=
  l ≫= fun m => [ChatMessageEnter (role m); Markdown (content m); ChatMessageExit].

(** A session from which a pass gets past the sidebar: the configuration
    that [initialize_session_state] leaves exists and its model is one of
    the options of the selectbox. *)
Definition ready (environ : gmap string string) (s : SessionState) : Prop :=
  match model_config s with
  | Some cfg => model cfg ∈ App.model_options environ
  | None =>
      (exists n, App.default_max_tokens environ = inr n) /\
      App.getenv_or environ "DEFAULT_MODEL" "claude-3-opus-20240229"
        ∈ App.model_options environ
  end.

(** The request built from the session at call time (lines 63-74). *)
Definition request_of (cfg : ModelConfig) (l : list Message) : Request :=
  {| req_model := model cfg; req_max_tokens := max_tokens cfg;
     req_temperature := temperature cfg; req_messages := l |}.

(** What the API call followed by [response.content[0].text] yields. *)
Definition completion (api : Anthropic) (api_key : string) (req : Request)
  : Py.Exception + string :=
  match api api_key req with
  | Responds r => App.first_text r
  | Fails e => inl e
  end.

(** A credential that passes the test [if not api_key] of line 54. *)
Definition credential (environ : gmap string string) (k : string) : Prop :=
  App.getenv environ "ANTHROPIC_API_KEY" = Some k /\ k <> "".

Definition user_message (prompt : string) : Message :=
  {| role := "user"; content := prompt |}.

Definition assistant_message (reply : string) : Message :=
  {| role := "assistant"; content := reply |}.

(** The text a run of [generate_llm_response] returned. *)
Definition returned (r : Ran string) : string :=
  match outcome r with
  | Returns t => t
  | Raises _ => ""
  end.

(** The configuration after the selectbox of [sidebar_config]. *)
Definition select (environ : gmap string string) (ui : Widgets)
    (cfg : ModelConfig) : ModelConfig :=
  {| model := default (model cfg)
                (picked ui ≫= (App.model_options environ !!.));
     temperature := temperature cfg;
     max_tokens := max_tokens cfg |}.

(** What a pass draws for a submitted turn, given the run of the client. *)
Definition turn_events (prompt : string) (g : Ran string) : list Event :=
  [ChatMessageEnter "user"; Markdown prompt; ChatMessageExit;
   ChatMessageEnter "assistant"]
  ++ shown g ++ [Markdown (returned g); ChatMessageExit].

(** The run of the client in a pass that starts, after the sidebar, from
    the conversation [l] and the configuration [cfg]. *)
Definition client_run (environ : gmap string string) (ui : Widgets)
    (api : Anthropic) (l : list Message) (cfg : ModelConfig) : Ran string :=
  App.generate_llm_response environ api (typed ui)
    {| messages := Some (l ++ [user_message (typed ui)])%list;
       model_config := Some cfg |}.

(** The entries a pass adds to the conversation. *)
Definition turn (ui : Widgets) (g : Ran string) : list Message :=
  if bool_decide (typed ui = "") then []
  else [user_message (typed ui); assistant_message (returned g)].

(** Test doubles for the API: one that answers with a canned text, one that
    fails. *)
Inductive Stub : Type :=
  | Canned (reply : string)
  | Failing (e : Py.Exception).

Definition stub_api (st : Stub) : Anthropic :=
  fun _ _ =>
    match st with
    | Canned t => Responds {| resp_content := [{| text := Some t |}] |}
    | Failing e => Fails e
    end.

(** The assistant entry a stubbed turn adds. *)
Definition stub_reply (st : Stub) : string :=
  match st with
  | Canned t => t
  | Failing _ => App.failure_reply
  end.

(** The Conversation of a session: empty until [messages] is created. *)
Definition conversation (s : SessionState) : list Message :=
  default [] (messages s).

(** The passes of a stubbed session. *)
Definition stubbed (passes : list (Widgets * Stub))
  : list (Widgets * Anthropic) :=
  (fun p => (p.1, stub_api p.2)) <$> passes.

(** The two entries a stubbed turn leaves in the conversation. *)
Definition stub_turn (p : Widgets * Stub) : list Message :=
  [user_message (typed p.1); assistant_message (stub_reply p.2)].

(** A pass in which a text is submitted and the clear button is left alone. *)
Definition submits (ui : Widgets) : Prop :=
  typed ui <> "" /\ clear_clicked ui = false.

(** The clearing pass as the specification words it: the conversation is
    emptied, a re-run is requested, and no chat message is drawn. *)
Definition clears_without_drawing (r : Ran ()) : Prop :=
  messages (session r) = Some [] /\
  outcome r = Raises Py.RerunException /\
  forall e, e ∈ shown r -> draws_message e = false.

(** ** Sessions and environments used as examples *)

Module Fixture.

Definition fresh : SessionState :=
  {| messages := None; model_config := None |}.

Definition env_key : gmap string string :=
  {[ "ANTHROPIC_API_KEY" := "sk-test" ]}.

Definition env_no_key : gmap string string := ∅.

Definition env_two_models : gmap string string :=
  <[ "AVAILABLE_MODELS" := "m1,m2" ]> env_key.

Definition env_bad_tokens : gmap string string :=
  <[ "DEFAULT_MAX_TOKENS" := "abc" ]> env_key.

Definition opus : ModelConfig :=
  {| model := "claude-3-opus-20240229"; temperature := 7 # 10;
     max_tokens := 1000 |}.

Definition stale : SessionState :=
  {| messages := Some [];
     model_config :=
       Some {| model := "m3"; temperature := 7 # 10; max_tokens := 1000 |} |}.

Definition one_turn : SessionState :=
  {| messages := Some [user_message "hello"; assistant_message "hi there"];
     model_config := Some opus |}.

Definition idle : Widgets :=
  {| picked := None; typed := ""; clear_clicked := false |}.

Definition says (t : string) : Widgets :=
  {| picked := None; typed := t; clear_clicked := false |}.

Definition clear : Widgets :=
  {| picked := None; typed := ""; clear_clicked := true |}.

Definition two_segments : Anthropic :=
  fun _ _ =>
    Responds {| resp_content :=
                  [ {| text := Some "hi there" |}; {| text := Some "more" |} ]
             |}.

Definition timeout : Py.Exception :=
  Py.LibraryError "APITimeoutError" "Request timed out.".

End Fixture.

(** ** Further vocabulary for the properties of the page *)

(** How each pass of a session ends, in order. *)
Fixpoint pass_outcomes (environ : gmap string string)
    (passes : list (Widgets * Anthropic)) (s : SessionState)
  : list (Outcome ()) :=
  match passes with
  | [] => []
  | (ui, api) :: rest =>
      outcome (App.main environ ui api s)
      :: pass_outcomes environ rest (session (App.main environ ui api s))
  end.

(** A pass that ends with an uncaught [Exception]; a requested re-run is
    not one. *)
Definition crashed (o : Outcome ()) : bool :=
  match o with
  | Raises (Py.Exc _) => true
  | _ => false
  end.

(** The names under which chat messages are opened, in order. *)
Definition entered (evs : list Event) : list string :=
  evs ≫= fun e => match e with ChatMessageEnter n => [n] | _ => [] end.

(** The bodies drawn with [st.markdown], in order. *)
Definition markdowns (evs : list Event) : list string :=
  evs ≫= fun e => match e with Markdown b => [b] | _ => [] end.




Module Scenario.

Definition env_listed : gmap string string :=
  <[ "AVAILABLE_MODELS" := "claude-3-opus-20240229,m2" ]> Fixture.env_key.


Definition uninitialized : SessionState :=
  {| messages := Some [user_message "hello"]; model_config := None |}.

Definition submit_and_clear : Widgets :=
  {| picked := None; typed := "hello"; clear_clicked := true |}.

Definition pick_haiku : Widgets :=
  {| picked := Some 2%nat; typed := "hello"; clear_clicked := false |}.

End Scenario.

(** ** Python helpers *)

Lemma find_index_lookup x l i :
  Py.find_index x l = Some i -> l !! i = Some x.
Proof.
  revert i; induction l as [|y l IH]; intros i; simpl; [discriminate|].
  destruct (String.eqb_spec y x) as [->|Hne].
  - intros [= <-]. reflexivity.
  - destruct (Py.find_index x l) as [j|]; simpl; [|discriminate].
    intros [= <-]. simpl. apply IH. reflexivity.
Qed.

Lemma find_index_None x l : Py.find_index x l = None <-> x ∉ l.
Proof.
  induction l as [|y l IH]; simpl.
  - split; [intros _; apply not_elem_of_nil | reflexivity].
  - destruct (String.eqb_spec y x) as [->|Hne].
    + split; [discriminate | intros H; destruct H; left].
    + rewrite not_elem_of_cons, <- IH.
      destruct (Py.find_index x l); simpl.
      * split; [discriminate | intros [_ ?]; discriminate].
      * split; [intros _; split; [congruence | reflexivity] | reflexivity].
Qed.

Lemma find_index_elem_of x l :
  x ∈ l -> exists i, Py.find_index x l = Some i.
Proof.
  intros Hin. destruct (Py.find_index x l) as [i|] eqn:E; [eauto|].
  apply find_index_None in E. contradiction.
Qed.

Lemma message_eta (l : list Message) :
  (fun m => {| role := role m; content := content m |}) <$> l = l.
Proof.
  induction l as [|[r c] l IH]; simpl; [reflexivity|]. f_equal. exact IH.
Qed.

(** ** Running the script's functions *)

#[global] Arguments App.getenv : simpl never.
#[global] Arguments App.getenv_or : simpl never.
#[global] Arguments App.model_options : simpl never.
#[global] Arguments App.default_max_tokens : simpl never.

Section Monad.

Context {A B : Type}.

Lemma bind_returns (m : Script A) (k : A -> Script B) s a s' evs :
  m s = {| outcome := Returns a; session := s'; shown := evs |} ->
  (m ≫= k) s = prepend evs (k a s').
Proof.
  intros H. unfold mbind, Script_bind, bind. rewrite H. reflexivity.
Qed.

Lemma bind_raises (m : Script A) (k : A -> Script B) s e s' evs :
  m s = {| outcome := Raises e; session := s'; shown := evs |} ->
  (m ≫= k) s = {| outcome := Raises e; session := s'; shown := evs |}.
Proof.
  intros H. unfold mbind, Script_bind, bind. rewrite H. reflexivity.
Qed.

Lemma try_returns (body : Script A) handler s a s' evs :
  body s = {| outcome := Returns a; session := s'; shown := evs |} ->
  try_except body handler s =
    {| outcome := Returns a; session := s'; shown := evs |}.
Proof. intros H. unfold try_except. rewrite H. reflexivity. Qed.

Lemma try_catches (body : Script A) handler s e s' evs :
  body s = {| outcome := Raises (Py.Exc e); session := s'; shown := evs |} ->
  try_except body handler s = prepend evs (handler e s').
Proof. intros H. unfold try_except. rewrite H. reflexivity. Qed.

Lemma with_block_run enter leave (body : Script A) s o s' evs :
  body s = {| outcome := o; session := s'; shown := evs |} ->
  with_block enter leave body s =
    {| outcome := o; session := s'; shown := enter :: evs ++ [leave] |}.
Proof. intros H. unfold with_block. rewrite H. reflexivity. Qed.

Lemma prepend_run evs (o : Outcome A) s evs' :
  prepend evs {| outcome := o; session := s; shown := evs' |} =
    {| outcome := o; session := s; shown := evs ++ evs' |}.
Proof. reflexivity. Qed.

Lemma ret_run (a : A) s :
  (mret a : Script A) s =
    {| outcome := Returns a; session := s; shown := [] |}.
Proof. reflexivity. Qed.

Lemma raise_run e s :
  @raise A e s = {| outcome := Raises e; session := s; shown := [] |}.
Proof. reflexivity. Qed.

End Monad.

Lemma emit_run e s :
  emit e s = {| outcome := Returns (); session := s; shown := [e] |}.
Proof. reflexivity. Qed.

Lemma get_state_run s :
  get_state s = {| outcome := Returns s; session := s; shown := [] |}.
Proof. reflexivity. Qed.

Lemma put_state_run s' s :
  put_state s' s = {| outcome := Returns (); session := s'; shown := [] |}.
Proof. reflexivity. Qed.

(** One step of a sequence: run the first command, a primitive whose
    equation is known, and go on with the rest. *)
Ltac run_prim := fail.

Ltac run_step :=
  first
    [ erewrite bind_returns by (solve [run_prim])
    | erewrite bind_raises by (solve [run_prim]) ];
  rewrite ?prepend_run; cbn [app].

Ltac run := repeat run_step.

Ltac run_prim ::=
  lazymatch goal with
  | |- emit _ _ = _ => apply emit_run
  | |- get_state _ = _ => apply get_state_run
  | |- put_state _ _ = _ => apply put_state_run
  | |- raise _ _ = _ => apply raise_run
  | |- mret _ _ = _ => apply ret_run
  end.

(** *** Session attributes *)

Lemma st_messages_run s l :
  messages s = Some l ->
  App.st_messages s = {| outcome := Returns l; session := s; shown := [] |}.
Proof.
  intros H. unfold App.st_messages. run_step. rewrite H. reflexivity.
Qed.

Lemma st_model_config_run s c :
  model_config s = Some c ->
  App.st_model_config s =
    {| outcome := Returns c; session := s; shown := [] |}.
Proof.
  intros H. unfold App.st_model_config. run_step. rewrite H. reflexivity.
Qed.

Lemma st_messages_missing s :
  messages s = None ->
  App.st_messages s =
    {| outcome := Raises (Py.Exc (Py.AttributeError
         "st.session_state has no attribute 'messages'"));
       session := s; shown := [] |}.
Proof.
  intros H. unfold App.st_messages. run_step. rewrite H. reflexivity.
Qed.

Lemma st_model_config_missing s :
  model_config s = None ->
  App.st_model_config s =
    {| outcome := Raises (Py.Exc (Py.AttributeError
         "st.session_state has no attribute 'model_config'"));
       session := s; shown := [] |}.
Proof.
  intros H. unfold App.st_model_config. run_step. rewrite H. reflexivity.
Qed.

Lemma set_messages_run l s :
  App.set_messages l s =
    {| outcome := Returns ();
       session := {| messages := Some l; model_config := model_config s |};
       shown := [] |}.
Proof. reflexivity. Qed.

Lemma set_model_config_run c s :
  App.set_model_config c s =
    {| outcome := Returns ();
       session := {| messages := messages s; model_config := Some c |};
       shown := [] |}.
Proof. reflexivity. Qed.

Lemma append_message_run m s l :
  messages s = Some l ->
  App.append_message m s =
    {| outcome := Returns ();
       session := {| messages := Some (l ++ [m])%list;
                     model_config := model_config s |};
       shown := [] |}.
Proof.
  intros H. unfold App.append_message.
  erewrite bind_returns by (apply st_messages_run, H).
  rewrite set_messages_run. reflexivity.
Qed.

Ltac run_prim ::=
  lazymatch goal with
  | |- emit _ _ = _ => apply emit_run
  | |- get_state _ = _ => apply get_state_run
  | |- put_state _ _ = _ => apply put_state_run
  | |- raise _ _ = _ => apply raise_run
  | |- mret _ _ = _ => apply ret_run
  | |- App.set_messages _ _ = _ => apply set_messages_run
  | |- App.set_model_config _ _ = _ => apply set_model_config_run
  | |- App.st_messages _ = _ =>
      first [apply st_messages_run | apply st_messages_missing];
      solve [eassumption | reflexivity]
  | |- App.st_model_config _ = _ =>
      first [apply st_model_config_run | apply st_model_config_missing];
      solve [eassumption | reflexivity]
  | |- App.append_message _ _ = _ =>
      apply append_message_run; solve [eassumption | reflexivity]
  | |- App.chat_message _ (emit _) _ = _ =>
      apply with_block_run, emit_run
  end.

(** *** [initialize_session_state] *)

Lemma initialize_run environ s :
  App.initialize_session_state environ s =
    match model_config s with
    | Some c =>
        {| outcome := Returns ();
           session := {| messages := Some (default [] (messages s));
                         model_config := Some c |};
           shown := [] |}
    | None =>
        match App.default_max_tokens environ with
        | inr n =>
            {| outcome := Returns ();
               session :=
                 {| messages := Some (default [] (messages s));
                    model_config :=
                      Some {| model := App.getenv_or environ "DEFAULT_MODEL"
                                         "claude-3-opus-20240229";
                              temperature := 7 # 10;
                              max_tokens := n |} |};
               shown := [] |}
        | inl e =>
            {| outcome := Raises (Py.Exc e);
               session := {| messages := Some (default [] (messages s));
                             model_config := None |};
               shown := [] |}
        end
    end.
Proof.
  unfold App.initialize_session_state.
  destruct s as [[l|] [c|]]; run; cbn [messages model_config default];
    try reflexivity;
    destruct (App.default_max_tokens environ) as [e|n]; cbn [lift]; run;
    reflexivity.
Qed.

(** *** [sidebar_config] *)

Lemma selectbox_run ui label options i x s :
  options !! i = Some x ->
  App.selectbox ui label options i s =
    {| outcome := Returns (default x (picked ui ≫= (options !!.)));
       session := s;
       shown := [SidebarSelectbox label options i] |}.
Proof.
  intros H. unfold App.selectbox. rewrite H. run. reflexivity.
Qed.

Lemma sidebar_run environ ui s cfg i :
  model_config s = Some cfg ->
  Py.find_index (model cfg) (App.model_options environ) = Some i ->
  App.sidebar_config environ ui s =
    {| outcome := Returns ();
       session :=
         {| messages := messages s;
            model_config :=
              Some {| model := default (model cfg)
                                 (picked ui ≫= (App.model_options environ !!.));
                      temperature := temperature cfg;
                      max_tokens := max_tokens cfg |} |};
       shown := [SidebarTitle "🤖 LLM Configuration";
                 SidebarSelectbox "Select Model" (App.model_options environ) i]
    |}.
Proof.
  intros Hc Hi. unfold App.sidebar_config. run.
  unfold Py.index. rewrite Hi. cbn [lift]. run.
  erewrite bind_returns
    by (apply selectbox_run, (find_index_lookup _ _ _ Hi)).
  run. rewrite set_model_config_run. reflexivity.
Qed.

Lemma sidebar_stale environ ui s cfg :
  model_config s = Some cfg ->
  model cfg ∉ App.model_options environ ->
  App.sidebar_config environ ui s =
    {| outcome :=
         Raises (Py.Exc (Py.ValueError
           (Py.quote (model cfg) ++ " is not in list")));
       session := s;
       shown := [SidebarTitle "🤖 LLM Configuration"] |}.
Proof.
  intros Hc Hn. apply find_index_None in Hn.
  unfold App.sidebar_config. run.
  unfold Py.index. rewrite Hn. cbn [lift]. run. reflexivity.
Qed.

(** The selectbox returns one of its options. *)
Lemma chosen_elem_of (options : list string) (x : string) (p : option nat) :
  x ∈ options -> default x (p ≫= (options !!.)) ∈ options.
Proof.
  intros Hx. destruct p as [j|]; cbn; [|exact Hx].
  destruct (options !! j) eqn:E; cbn; [|exact Hx].
  eapply list_elem_of_lookup_2, E.
Qed.

(** *** [display_chat_history] *)

Lemma display_messages_run l s :
  App.display_messages l s =
    {| outcome := Returns (); session := s; shown := history_events l |}.
Proof.
  induction l as [|m l IH]; [reflexivity|].
  cbn [App.display_messages]. run. rewrite IH. reflexivity.
Qed.

Lemma display_run l s :
  messages s = Some l ->
  App.display_chat_history s =
    {| outcome := Returns (); session := s; shown := history_events l |}.
Proof.
  intros H. unfold App.display_chat_history. run.
  rewrite display_messages_run. reflexivity.
Qed.

(** *** [generate_llm_response] *)

Lemma messages_create_run api k req s :
  App.messages_create api k req s =
    match api k req with
    | Responds r =>
        {| outcome := Returns r; session := s; shown := [ApiCall k req] |}
    | Fails e =>
        {| outcome := Raises (Py.Exc e); session := s;
           shown := [ApiCall k req] |}
    end.
Proof.
  unfold App.messages_create. run. destruct (api k req); reflexivity.
Qed.

Lemma request_completion_run api k s l cfg :
  messages s = Some l ->
  model_config s = Some cfg ->
  App.request_completion api k s =
    {| outcome :=
         match completion api k (request_of cfg l) with
         | inr t => Returns t
         | inl e => Raises (Py.Exc e)
         end;
       session := s;
       shown := [ApiCall k (request_of cfg l)] |}.
Proof.
  intros Hl Hc. unfold App.request_completion. run.
  rewrite message_eta. fold (request_of cfg l). unfold completion.
  unfold mbind, Script_bind, bind. rewrite messages_create_run.
  destruct (api k (request_of cfg l)) as [r|e]; cbn [outcome session shown];
    [|reflexivity].
  destruct (App.first_text r); reflexivity.
Qed.

Lemma generate_missing_key environ api prompt s :
  App.getenv environ "ANTHROPIC_API_KEY" = None \/
  App.getenv environ "ANTHROPIC_API_KEY" = Some "" ->
  App.generate_llm_response environ api prompt s =
    {| outcome := Returns App.missing_key_reply;
       session := s;
       shown := [ErrorBox
         "API key not found. Please set ANTHROPIC_API_KEY in your .env file."]
    |}.
Proof.
  intros [H|H]; unfold App.generate_llm_response; rewrite H; reflexivity.
Qed.

Lemma generate_with_key environ api prompt s k :
  credential environ k ->
  App.generate_llm_response environ api prompt s =
    try_except (App.request_completion api k)
      (fun e =>
         emit (ErrorBox ("Error generating response: " ++ Py.str_exc e));;
         mret App.failure_reply) s.
Proof.
  intros [H Hk]. unfold App.generate_llm_response. rewrite H.
  destruct k; [contradiction|reflexivity].
Qed.

Lemma generate_run environ api prompt s k l cfg :
  credential environ k ->
  messages s = Some l ->
  model_config s = Some cfg ->
  App.generate_llm_response environ api prompt s =
    match completion api k (request_of cfg l) with
    | inr t =>
        {| outcome := Returns t; session := s;
           shown := [ApiCall k (request_of cfg l)] |}
    | inl e =>
        {| outcome := Returns App.failure_reply; session := s;
           shown := [ApiCall k (request_of cfg l);
                     ErrorBox ("Error generating response: " ++ Py.str_exc e)]
        |}
    end.
Proof.
  intros Hk Hl Hc. rewrite (generate_with_key _ _ _ _ _ Hk).
  pose proof (request_completion_run api k s l cfg Hl Hc) as Hr.
  destruct (completion api k (request_of cfg l)) as [e|t].
  - erewrite try_catches by exact Hr. run. reflexivity.
  - erewrite try_returns by exact Hr. reflexivity.
Qed.

(** Whatever the session and the API, the function returns, and leaves the
    session as it found it. *)
Lemma generate_returns environ api prompt s :
  exists t evs,
    App.generate_llm_response environ api prompt s =
      {| outcome := Returns t; session := s; shown := evs |}.
Proof.
  destruct (App.getenv environ "ANTHROPIC_API_KEY") as [k|] eqn:Hk.
  2:{ eexists _, _. apply generate_missing_key. left. exact Hk. }
  destruct (decide (k = "")) as [->|Hne].
  { eexists _, _. apply generate_missing_key. right. exact Hk. }
  assert (credential environ k) as Hcred by (split; assumption).
  rewrite (generate_with_key _ _ _ _ _ Hcred).
  destruct (messages s) as [l|] eqn:Hl.
  - destruct (model_config s) as [cfg|] eqn:Hc.
    + pose proof (request_completion_run api k s l cfg Hl Hc) as Hr.
      destruct (completion api k (request_of cfg l)) as [e|t].
      * eexists _, _. erewrite try_catches by exact Hr. run. reflexivity.
      * eexists _, _. erewrite try_returns by exact Hr. reflexivity.
    + eexists _, _. erewrite try_catches.
      * run. reflexivity.
      * unfold App.request_completion. run. reflexivity.
  - eexists _, _. erewrite try_catches.
    + run. reflexivity.
    + unfold App.request_completion. run. reflexivity.
Qed.

(** *** [main] *)

Lemma assistant_block_run environ api p s t evs :
  App.generate_llm_response environ api p s =
    {| outcome := Returns t; session := s; shown := evs |} ->
  App.chat_message "assistant"
    (response ← App.generate_llm_response environ api p;
     emit (Markdown response);;
     mret response) s =
    {| outcome := Returns t; session := s;
       shown := ChatMessageEnter "assistant"
                  :: (evs ++ [Markdown t]) ++ [ChatMessageExit] |}.
Proof.
  intros Hg. apply with_block_run.
  erewrite bind_returns by exact Hg. run. reflexivity.
Qed.

Lemma submit_run environ api p s l :
  messages s = Some l ->
  let g := App.generate_llm_response environ api p
             {| messages := Some (l ++ [user_message p])%list;
                model_config := model_config s |} in
  App.submit environ api p s =
    {| outcome := Returns ();
       session :=
         {| messages :=
              Some (l ++ [user_message p; assistant_message (returned g)])%list;
            model_config := model_config s |};
       shown := turn_events p g |}.
Proof.
  intros Hl g. unfold App.submit. fold (user_message p). run.
  destruct (generate_returns environ api p
              {| messages := Some (l ++ [user_message p])%list;
                 model_config := model_config s |}) as (t & evs & Hg).
  subst g. rewrite Hg.
  erewrite bind_returns by (apply assistant_block_run, Hg).
  erewrite append_message_run by reflexivity.
  rewrite !prepend_run.
  unfold turn_events, returned, assistant_message.
  cbn [outcome session shown messages model_config app].
  rewrite <- (assoc_L (++) l), <- (assoc_L (++) evs), app_nil_r.
  reflexivity.
Qed.

Lemma text_input_run ui label key s :
  App.text_input ui label key s =
    {| outcome := Returns (typed ui); session := s;
       shown := [TextInput label key] |}.
Proof. unfold App.text_input. run. reflexivity. Qed.

Lemma button_run ui label s :
  App.button ui label s =
    {| outcome := Returns (clear_clicked ui); session := s;
       shown := [SidebarButton label] |}.
Proof. unfold App.button. run. reflexivity. Qed.

(** Lines 125-126. *)
Lemma clear_block_run s :
  (App.set_messages [];; App.experimental_rerun) s =
    {| outcome := Raises Py.RerunException;
       session := {| messages := Some []; model_config := model_config s |};
       shown := [] |}.
Proof. run. reflexivity. Qed.

Lemma main_run environ ui api s l cfg i :
  App.initialize_session_state environ s =
    {| outcome := Returns ();
       session := {| messages := Some l; model_config := Some cfg |};
       shown := [] |} ->
  Py.find_index (model cfg) (App.model_options environ) = Some i ->
  let cfg' := select environ ui cfg in
  let g := client_run environ ui api l cfg' in
  App.main environ ui api s =
    {| outcome :=
         if clear_clicked ui then Raises Py.RerunException else Returns ();
       session :=
         {| messages :=
              Some (if clear_clicked ui then [] else l ++ turn ui g)%list;
            model_config := Some cfg' |};
       shown :=
         [SidebarTitle "🤖 LLM Configuration";
          SidebarSelectbox "Select Model" (App.model_options environ) i;
          Title "💬 LLM Chat Interface"]
         ++ history_events l
         ++ [TextInput "You:" "input"]
         ++ (if bool_decide (typed ui = "") then []
             else turn_events (typed ui) g)
         ++ [SidebarMarkdown "---"; SidebarButton "🗑️ Clear Chat History"]
         ++ (if clear_clicked ui then []
             else [SidebarMarkdown App.about_panel]) |}.
Proof.
  intros Hinit Hi cfg' g. unfold App.main.
  erewrite bind_returns by exact Hinit. rewrite ?prepend_run.
  erewrite bind_returns by (eapply sidebar_run; [reflexivity | exact Hi]).
  cbn [messages model_config]. fold (select environ ui cfg). fold cfg'.
  run.
  erewrite bind_returns by (apply display_run; reflexivity).
  erewrite bind_returns by apply text_input_run. rewrite ?prepend_run.
  assert ((if bool_decide (typed ui = "") then mret ()
           else App.submit environ api (typed ui))
            {| messages := Some l; model_config := Some cfg' |} =
          {| outcome := Returns ();
             session := {| messages := Some (l ++ turn ui g)%list;
                           model_config := Some cfg' |};
             shown := if bool_decide (typed ui = "") then []
                      else turn_events (typed ui) g |}) as Hsub.
  { unfold turn. case_bool_decide.
    - rewrite app_nil_r. reflexivity.
    - erewrite submit_run by reflexivity. reflexivity. }
  erewrite bind_returns by exact Hsub. run.
  erewrite bind_returns by apply button_run. rewrite ?prepend_run.
  destruct (clear_clicked ui).
  - erewrite bind_raises by apply clear_block_run.
    rewrite !prepend_run. cbn [app model_config]. reflexivity.
  - run. rewrite emit_run, !prepend_run. cbn [app].
    rewrite <- ?(assoc_L (++)). cbn [app]. reflexivity.
Qed.

(** *** Sessions that get past the sidebar *)

Lemma ready_start environ s :
  ready environ s ->
  exists cfg i,
    App.initialize_session_state environ s =
      {| outcome := Returns ();
         session := {| messages := Some (conversation s);
                       model_config := Some cfg |};
         shown := [] |} /\
    Py.find_index (model cfg) (App.model_options environ) = Some i.
Proof.
  unfold ready. rewrite initialize_run.
  destruct (model_config s) as [c|].
  - intros [i Hi]%find_index_elem_of. exists c, i. split; [reflexivity|exact Hi].
  - intros [[n Hn] [i Hi]%find_index_elem_of]. rewrite Hn.
    eexists _, i. split; [reflexivity|exact Hi].
Qed.

(** [ready] is exact: from any other session the pass ends in the
    initializer or in the sidebar with an exception. *)
Lemma not_ready_raises environ ui api s :
  ~ ready environ s ->
  exists e, outcome (App.main environ ui api s) = Raises (Py.Exc e).
Proof.
  unfold ready, App.main. intros Hn.
  pose proof (initialize_run environ s) as Hinit.
  destruct (model_config s) as [c|].
  - erewrite bind_returns by exact Hinit.
    erewrite bind_raises by (eapply sidebar_stale; [reflexivity | exact Hn]).
    eexists. reflexivity.
  - destruct (App.default_max_tokens environ) as [e|n].
    + erewrite bind_raises by exact Hinit. eexists. reflexivity.
    + erewrite bind_returns by exact Hinit.
      erewrite bind_raises.
      2:{ eapply sidebar_stale; [reflexivity|]. cbn [model].
          intros Hin. apply Hn. split; [exists n; reflexivity | exact Hin]. }
      eexists. reflexivity.
Qed.

Lemma select_ready environ ui cfg l :
  model cfg ∈ App.model_options environ ->
  ready environ {| messages := l; model_config := Some (select environ ui cfg) |}.
Proof. intros H. cbn. apply chosen_elem_of, H. Qed.

Lemma find_index_elem x l i : Py.find_index x l = Some i -> x ∈ l.
Proof. intros H. eapply list_elem_of_lookup_2, find_index_lookup, H. Qed.

(** The events of a pass, by kind. *)

Lemma api_calls_app evs evs' :
  api_calls (evs ++ evs') = (api_calls evs ++ api_calls evs')%list.
Proof. unfold api_calls. apply bind_app. Qed.

Lemma api_calls_history l : api_calls (history_events l) = [].
Proof. induction l as [|m l IH]; [reflexivity|exact IH]. Qed.

(** ** Configuration loading and the initializer *)

Lemma default_max_tokens_absent environ :
  App.getenv environ "DEFAULT_MAX_TOKENS" = None ->
  App.default_max_tokens environ = inr 1000.
Proof. intros H. unfold App.default_max_tokens. rewrite H. reflexivity. Qed.


(** C2: the default of 1000 is used only when the variable is absent.  With
    DEFAULT_MAX_TOKENS=abc the conversion [int('abc')] raises [ValueError];
    nothing catches it, so the initializer, and with it the whole pass, ends
    with that exception and no [model_config] is created. *)
Theorem default_max_tokens_unparsable :
  App.default_max_tokens Fixture.env_bad_tokens =
    inl (Py.ValueError "invalid literal for int() with base 10: 'abc'") /\
  App.initialize_session_state Fixture.env_bad_tokens Fixture.fresh =
    {| outcome := Raises (Py.Exc
         (Py.ValueError "invalid literal for int() with base 10: 'abc'"));
       session := {| messages := Some []; model_config := None |};
       shown := [] |} /\
  App.main Fixture.env_bad_tokens Fixture.idle Fixture.two_segments
    Fixture.fresh =
    {| outcome := Raises (Py.Exc
         (Py.ValueError "invalid literal for int() with base 10: 'abc'"));
       session := {| messages := Some []; model_config := None |};
       shown := [] |}.
Proof. repeat split; vm_compute; reflexivity. Qed.

(** C10: the initializer leaves an existing session state as it is, creates
    on a fresh session the empty conversation and the configuration that
    the environment yields (or, when the token default cannot be read,
    creates the conversation and raises), and running it a second time
    changes nothing and ends the same way. *)
Theorem initialize_session_state_idempotent environ :
  (forall l c,
     App.initialize_session_state environ
       {| messages := Some l; model_config := Some c |} =
       {| outcome := Returns ();
          session := {| messages := Some l; model_config := Some c |};
          shown := [] |}) /\
  App.initialize_session_state environ
    {| messages := None; model_config := None |} =
    match App.default_max_tokens environ with
    | inr n =>
        {| outcome := Returns ();
           session :=
             {| messages := Some [];
                model_config :=
                  Some {| model := App.getenv_or environ "DEFAULT_MODEL"
                                     "claude-3-opus-20240229";
                          temperature := 7 # 10;
                          max_tokens := n |} |};
           shown := [] |}
    | inl e =>
        {| outcome := Raises (Py.Exc e);
           session := {| messages := Some []; model_config := None |};
           shown := [] |}
    end /\
  (forall s,
     App.initialize_session_state environ
       (session (App.initialize_session_state environ s)) =
     App.initialize_session_state environ s).
Proof.
  split; [|split].
  - intros l c. rewrite initialize_run. reflexivity.
  - rewrite initialize_run. reflexivity.
  - intros s. rewrite !initialize_run.
    destruct (model_config s) as [c|] eqn:Hc.
    + cbn [session model_config messages default]. reflexivity.
    + destruct (App.default_max_tokens environ) as [e|n];
        cbn [session model_config messages default]; reflexivity.
Qed.

(** ** The model selector *)

(** C1: with AVAILABLE_MODELS=m1,m2 and a session whose model is m3, the
    lookup [model_options.index('m3')] raises [ValueError] before the
    selectbox is drawn; the pass ends with that exception and no fallback
    entry is selected.  The same happens on a fresh session when the default
    model is not among the configured options. *)
Theorem sidebar_config_stale_model :
  App.model_options Fixture.env_two_models = ["m1"; "m2"] /\
  App.sidebar_config Fixture.env_two_models Fixture.idle Fixture.stale =
    {| outcome := Raises (Py.Exc (Py.ValueError "'m3' is not in list"));
       session := Fixture.stale;
       shown := [SidebarTitle "🤖 LLM Configuration"] |} /\
  App.main Fixture.env_two_models Fixture.idle Fixture.two_segments
    Fixture.stale =
    {| outcome := Raises (Py.Exc (Py.ValueError "'m3' is not in list"));
       session := Fixture.stale;
       shown := [SidebarTitle "🤖 LLM Configuration"] |} /\
  outcome (App.main Fixture.env_two_models Fixture.idle Fixture.two_segments
             Fixture.fresh) =
    Raises (Py.Exc
      (Py.ValueError "'claude-3-opus-20240229' is not in list")).
Proof. repeat split; vm_compute; reflexivity. Qed.

(** ** The completion client *)

Lemma completion_fault api k req e :
  api k req = Fails e \/
  (exists r, api k req = Responds r /\ App.first_text r = inl e) ->
  completion api k req = inl e.
Proof.
  unfold completion. intros [->|(r & -> & Hr)]; [reflexivity|exact Hr].
Qed.

(** C4: the client returns for every session, environment and behaviour of
    the API, and leaves the session as it was.  When the call raises, or
    the response has no first segment or a first segment without text, the
    value returned is the fixed failure text, after an error box that
    carries the description of the exception. *)
Theorem generate_llm_response_contains_failures environ api prompt s :
  (exists t, outcome (App.generate_llm_response environ api prompt s)
             = Returns t) /\
  session (App.generate_llm_response environ api prompt s) = s /\
  (forall k l cfg e,
     credential environ k ->
     messages s = Some l ->
     model_config s = Some cfg ->
     api k (request_of cfg l) = Fails e \/
     (exists r, api k (request_of cfg l) = Responds r /\
                App.first_text r = inl e) ->
     App.generate_llm_response environ api prompt s =
       {| outcome := Returns App.failure_reply;
          session := s;
          shown := [ApiCall k (request_of cfg l);
                    ErrorBox ("Error generating response: " ++ Py.str_exc e)]
       |}).
Proof.
  destruct (generate_returns environ api prompt s) as (t & evs & Hg).
  split; [|split].
  - exists t. rewrite Hg. reflexivity.
  - rewrite Hg. reflexivity.
  - intros k l cfg e Hk Hl Hc Hfault.
    rewrite (generate_run _ _ _ _ _ _ _ Hk Hl Hc).
    rewrite (completion_fault _ _ _ _ Hfault). reflexivity.
Qed.

Lemma generate_llm_response_contains_failures_witness :
  App.generate_llm_response Fixture.env_key
    (stub_api (Failing Fixture.timeout)) "hello" Fixture.one_turn =
    {| outcome := Returns App.failure_reply;
       session := Fixture.one_turn;
       shown := [ApiCall "sk-test"
                   (request_of Fixture.opus
                      [user_message "hello"; assistant_message "hi there"]);
                 ErrorBox "Error generating response: Request timed out."] |}.
Proof.
  apply (proj2 (proj2 (generate_llm_response_contains_failures
                         Fixture.env_key (stub_api (Failing Fixture.timeout))
                         "hello" Fixture.one_turn))
           "sk-test" _ Fixture.opus Fixture.timeout).
  - split; [vm_compute; reflexivity | discriminate].
  - reflexivity.
  - reflexivity.
  - left. reflexivity.
Defined.

(** C5: without a credential (the variable unset, or set to the empty text)
    the client returns the missing-key text at once; its only event is the
    error box, so the API is not called. *)
Theorem generate_llm_response_missing_credential environ api prompt s :
  App.getenv environ "ANTHROPIC_API_KEY" = None \/
  App.getenv environ "ANTHROPIC_API_KEY" = Some "" ->
  App.generate_llm_response environ api prompt s =
    {| outcome := Returns App.missing_key_reply;
       session := s;
       shown := [ErrorBox
         "API key not found. Please set ANTHROPIC_API_KEY in your .env file."]
    |} /\
  api_calls (shown (App.generate_llm_response environ api prompt s)) = [].
Proof.
  intros H. rewrite (generate_missing_key _ _ _ _ H).
  split; reflexivity.
Qed.

Lemma generate_llm_response_missing_credential_witness :
  api_calls (shown (App.generate_llm_response Fixture.env_no_key
                      Fixture.two_segments "hello" Fixture.one_turn)) = [].
Proof.
  apply (generate_llm_response_missing_credential Fixture.env_no_key
           Fixture.two_segments "hello" Fixture.one_turn).
  left. vm_compute. reflexivity.
Defined.

(** C8: when the API answers and the first content segment has text, the
    client returns exactly that text, whatever segments follow it. *)
Theorem generate_llm_response_first_segment
    environ api prompt s k l cfg b rest t :
  credential environ k ->
  messages s = Some l ->
  model_config s = Some cfg ->
  api k (request_of cfg l) = Responds {| resp_content := b :: rest |} ->
  text b = Some t ->
  App.generate_llm_response environ api prompt s =
    {| outcome := Returns t; session := s;
       shown := [ApiCall k (request_of cfg l)] |}.
Proof.
  intros Hk Hl Hc Hr Ht.
  rewrite (generate_run _ _ _ _ _ _ _ Hk Hl Hc).
  unfold completion, App.first_text. rewrite Hr. cbn [resp_content].
  rewrite Ht. reflexivity.
Qed.

Lemma generate_llm_response_first_segment_witness :
  outcome (App.generate_llm_response Fixture.env_key Fixture.two_segments
             "hello" Fixture.one_turn) = Returns "hi there".
Proof.
  rewrite (generate_llm_response_first_segment Fixture.env_key
             Fixture.two_segments "hello" Fixture.one_turn "sk-test"
             [user_message "hello"; assistant_message "hi there"]
             Fixture.opus {| text := Some "hi there" |}
             [ {| text := Some "more" |} ] "hi there").
  - reflexivity.
  - split; [vm_compute; reflexivity | discriminate].
  - reflexivity.
  - reflexivity.
  - reflexivity.
  - reflexivity.
Defined.

(** ** The pass *)

Lemma turn_events_api_calls p g :
  api_calls (turn_events p g) = api_calls (shown g).
Proof.
  unfold turn_events. rewrite !api_calls_app. cbn. apply app_nil_r.
Qed.

Lemma main_api_calls environ ui api s l cfg i :
  App.initialize_session_state environ s =
    {| outcome := Returns ();
       session := {| messages := Some l; model_config := Some cfg |};
       shown := [] |} ->
  Py.find_index (model cfg) (App.model_options environ) = Some i ->
  api_calls (shown (App.main environ ui api s)) =
    if bool_decide (typed ui = "") then []
    else api_calls (shown (client_run environ ui api l (select environ ui cfg))).
Proof.
  intros Hinit Hi. rewrite (main_run _ _ _ _ _ _ _ Hinit Hi).
  cbn [shown]. rewrite !api_calls_app, api_calls_history.
  case_bool_decide; [|rewrite turn_events_api_calls];
    destruct (clear_clicked ui); cbn; rewrite ?app_nil_r; reflexivity.
Qed.

(** C7: with a credential, the client makes one call, whose request holds
    the model, the token limit and the temperature of the session and the
    whole conversation, entry by entry; in a pass with a submission that
    conversation is the one before the pass followed by the user message
    just submitted. *)
Theorem request_holds_whole_conversation environ ui api s k :
  credential environ k ->
  (forall prompt l cfg,
     messages s = Some l ->
     model_config s = Some cfg ->
     api_calls (shown (App.generate_llm_response environ api prompt s)) =
       [(k, {| req_model := model cfg;
               req_max_tokens := max_tokens cfg;
               req_temperature := temperature cfg;
               req_messages := l |})]) /\
  (ready environ s ->
   typed ui <> "" ->
   exists cfg,
     model_config (session (App.main environ ui api s)) = Some cfg /\
     api_calls (shown (App.main environ ui api s)) =
       [(k, {| req_model := model cfg;
               req_max_tokens := max_tokens cfg;
               req_temperature := temperature cfg;
               req_messages :=
                 (conversation s ++ [user_message (typed ui)])%list |})]).
Proof.
  intros Hk. split.
  - intros prompt l cfg Hl Hc.
    rewrite (generate_run _ _ _ _ _ _ _ Hk Hl Hc).
    destruct (completion api k (request_of cfg l)); reflexivity.
  - intros Hready Hp.
    destruct (ready_start _ _ Hready) as (cfg & i & Hinit & Hi).
    exists (select environ ui cfg). split.
    + rewrite (main_run _ _ _ _ _ _ _ Hinit Hi). reflexivity.
    + rewrite (main_api_calls _ _ _ _ _ _ _ Hinit Hi).
      rewrite bool_decide_eq_false_2 by exact Hp.
      unfold client_run.
      erewrite generate_run by (first [exact Hk | reflexivity]).
      destruct (completion api k _); reflexivity.
Qed.

Lemma request_holds_whole_conversation_witness :
  api_calls (shown (App.main Fixture.env_key (Fixture.says "bye")
                      Fixture.two_segments Fixture.one_turn)) =
    [("sk-test",
      {| req_model := "claude-3-opus-20240229";
         req_max_tokens := 1000;
         req_temperature := 7 # 10;
         req_messages :=
           [user_message "hello"; assistant_message "hi there";
            user_message "bye"] |})].
Proof.
  destruct (request_holds_whole_conversation Fixture.env_key
              (Fixture.says "bye") Fixture.two_segments Fixture.one_turn
              "sk-test") as [_ H].
  - split; [vm_compute; reflexivity | discriminate].
  - destruct H as (cfg & Hcfg & Hcalls).
    + vm_compute. apply list_elem_of_here.
    + discriminate.
    + rewrite Hcalls. vm_compute in Hcfg. injection Hcfg as <-. reflexivity.
Defined.

Lemma main_clear_run environ ui api s :
  ready environ s ->
  clear_clicked ui = true ->
  exists cfg i drawn,
    App.main environ ui api s =
      {| outcome := Raises Py.RerunException;
         session := {| messages := Some []; model_config := Some cfg |};
         shown :=
           [SidebarTitle "🤖 LLM Configuration";
            SidebarSelectbox "Select Model" (App.model_options environ) i;
            Title "💬 LLM Chat Interface"]
           ++ history_events (conversation s)
           ++ (TextInput "You:" "input" :: drawn)
           ++ [SidebarMarkdown "---";
               SidebarButton "🗑️ Clear Chat History"] |}.
Proof.
  intros Hready Hclear.
  destruct (ready_start _ _ Hready) as (cfg & i & Hinit & Hi).
  eexists (select environ ui cfg), i, _.
  rewrite (main_run _ _ _ _ _ _ _ Hinit Hi), Hclear.
  rewrite app_nil_r. reflexivity.
Qed.

(** C3, as the specification words it, fails: in a pass that clears a
    conversation of one turn, that turn is drawn before the button is
    reached. *)
Lemma history_drawn_before_clear :
  clear_clicked Fixture.clear = true /\
  ~ clears_without_drawing
      (App.main Fixture.env_key Fixture.clear Fixture.two_segments
         Fixture.one_turn).
Proof.
  split; [reflexivity|]. intros (_ & _ & H).
  specialize (H (Markdown "hello")). discriminate H.
  eapply list_elem_of_lookup_2 with (i := 4%nat). vm_compute. reflexivity.
Qed.

(** C3, amended: in a pass that reaches the clear button with the button
    pressed, the conversation is emptied and the script stops there with a
    request to re-run, so nothing after the button (the About panel) is
    drawn; the conversation as it was at the start of the pass has been
    drawn before, right after the title. *)
Theorem clearing_pass environ ui api s :
  ready environ s ->
  clear_clicked ui = true ->
  messages (session (App.main environ ui api s)) = Some [] /\
  outcome (App.main environ ui api s) = Raises Py.RerunException /\
  last (shown (App.main environ ui api s)) =
    Some (SidebarButton "🗑️ Clear Chat History") /\
  exists i rest,
    shown (App.main environ ui api s) =
      ([SidebarTitle "🤖 LLM Configuration";
        SidebarSelectbox "Select Model" (App.model_options environ) i;
        Title "💬 LLM Chat Interface"]
       ++ history_events (conversation s) ++ rest)%list.
Proof.
  intros Hready Hclear.
  destruct (main_clear_run environ ui api s Hready Hclear)
    as (cfg & i & drawn & ->).
  cbn [session outcome shown messages]. repeat split.
  - rewrite !(assoc_L (++)), last_app. reflexivity.
  - eexists i, _. reflexivity.
Qed.

Lemma clearing_pass_witness :
  messages (session (App.main Fixture.env_key Fixture.clear
                       Fixture.two_segments Fixture.one_turn)) = Some [] /\
  outcome (App.main Fixture.env_key Fixture.clear Fixture.two_segments
             Fixture.one_turn) = Raises Py.RerunException.
Proof.
  destruct (clearing_pass Fixture.env_key Fixture.clear Fixture.two_segments
              Fixture.one_turn) as (Hm & Ho & _).
  - vm_compute. apply list_elem_of_here.
  - reflexivity.
  - split; [exact Hm | exact Ho].
Defined.

(** C9: whatever the conversation before, a pass in which the clear button
    is pressed leaves a conversation of length 0. *)
Theorem clear_resets_conversation environ ui api s :
  ready environ s ->
  clear_clicked ui = true ->
  messages (session (App.main environ ui api s)) = Some [] /\
  length (conversation (session (App.main environ ui api s))) = 0%nat.
Proof.
  intros Hready Hclear.
  destruct (main_clear_run environ ui api s Hready Hclear)
    as (cfg & i & drawn & ->).
  split; reflexivity.
Qed.

Lemma clear_resets_conversation_witness :
  length (conversation Fixture.one_turn) = 2%nat /\
  length (conversation
            (session (App.main Fixture.env_key Fixture.clear
                        Fixture.two_segments Fixture.one_turn))) = 0%nat.
Proof.
  split; [reflexivity|].
  apply (clear_resets_conversation Fixture.env_key Fixture.clear
           Fixture.two_segments Fixture.one_turn).
  - vm_compute. apply list_elem_of_here.
  - reflexivity.
Defined.

(** *** Turn after turn *)

Lemma stub_client_run environ k ui st l cfg :
  credential environ k ->
  returned (client_run environ ui (stub_api st) l cfg) = stub_reply st.
Proof.
  intros Hk. unfold client_run.
  erewrite generate_run by (first [exact Hk | reflexivity]).
  unfold completion. destruct st; reflexivity.
Qed.

Lemma main_submit_run environ k ui st s :
  credential environ k ->
  ready environ s ->
  submits ui ->
  ready environ (session (App.main environ ui (stub_api st) s)) /\
  conversation (session (App.main environ ui (stub_api st) s)) =
    (conversation s ++ stub_turn (ui, st))%list.
Proof.
  intros Hk Hready [Hp Hclear].
  destruct (ready_start _ _ Hready) as (cfg & i & Hinit & Hi).
  rewrite (main_run _ _ _ _ _ _ _ Hinit Hi), Hclear. cbn [session].
  split.
  - apply select_ready. eapply find_index_elem, Hi.
  - unfold conversation, turn, stub_turn. cbn [messages default fst snd].
    rewrite bool_decide_eq_false_2 by exact Hp.
    rewrite (stub_client_run _ _ _ _ _ _ Hk). reflexivity.
Qed.

Lemma run_passes_conversation environ k passes :
  credential environ k ->
  Forall (fun p => submits p.1) passes ->
  forall s,
    ready environ s ->
    conversation (run_passes environ (stubbed passes) s) =
      (conversation s ++ (passes ≫= stub_turn))%list.
Proof.
  intros Hk Hall. induction Hall as [|[ui st] passes Hsub _ IH]; intros s Hs.
  - cbn. rewrite app_nil_r. reflexivity.
  - cbn [stubbed fmap list_fmap run_passes fst snd]. cbn [fst] in Hsub.
    destruct (main_submit_run environ k ui st s Hk Hs Hsub) as [Hr Hc].
    fold (stubbed passes). rewrite (IH _ Hr), Hc.
    rewrite <- (assoc_L (++)). reflexivity.
Qed.

(** C6: from an empty conversation, N passes that each submit a non-empty
    text, with the API stubbed, leave the conversation made of the N turns
    in the order of the passes, each turn the user's text followed by one
    assistant entry (the canned text, or the failure text when the stub
    fails); its length is 2N. *)
Theorem conversation_after_submissions environ k
    (passes : list (Widgets * Stub)) s :
  credential environ k ->
  ready environ s ->
  conversation s = [] ->
  Forall (fun p => submits p.1) passes ->
  conversation (run_passes environ (stubbed passes) s) =
    passes ≫= stub_turn /\
  length (conversation (run_passes environ (stubbed passes) s)) =
    (2 * length passes)%nat.
Proof.
  intros Hk Hready Hempty Hall.
  rewrite (run_passes_conversation environ k passes Hk Hall s Hready), Hempty.
  split; [reflexivity|]. cbn [app].
  clear. induction passes as [|p passes IH]; [reflexivity|].
  cbn [mbind list_bind length app stub_turn]. cbn in IH |- *. lia.
Qed.

Lemma conversation_after_submissions_witness :
  conversation
    (run_passes Fixture.env_key
       (stubbed [(Fixture.says "hello", Canned "hi there");
                 (Fixture.says "bye", Failing Fixture.timeout)])
       Fixture.fresh) =
    [user_message "hello"; assistant_message "hi there";
     user_message "bye"; assistant_message App.failure_reply].
Proof.
  apply (conversation_after_submissions Fixture.env_key "sk-test"
           [(Fixture.says "hello", Canned "hi there");
            (Fixture.says "bye", Failing Fixture.timeout)]
           Fixture.fresh).
  - split; [vm_compute; reflexivity | discriminate].
  - split.
    + exists 1000. vm_compute. reflexivity.
    + vm_compute. apply list_elem_of_here.
  - reflexivity.
  - repeat constructor; discriminate.
Defined.

(** ** Further properties of the page *)

(** *** Text *)

Lemma string_app_assoc (a b c : string) : (a ++ b) ++ c = a ++ (b ++ c).
Proof.
  induction a as [|x a IH]; [reflexivity|].
  change (String x ((a ++ b) ++ c) = String x (a ++ (b ++ c))).
  rewrite IH. reflexivity.
Qed.

Lemma string_app_nil_r (a : string) : a ++ "" = a.
Proof.
  induction a as [|x a IH]; [reflexivity|].
  change (String x (a ++ "") = String x a). rewrite IH. reflexivity.
Qed.

Lemma rev_app_append s t : String.rev_app s t = String.rev s ++ t.
Proof.
  unfold String.rev. revert t. induction s as [|x s IH]; intros t; cbn.
  - reflexivity.
  - rewrite (IH (String x t)), (IH (String x "")), string_app_assoc.
    reflexivity.
Qed.



Lemma split_acc_nonempty sep cur s : Py.split_acc sep cur s <> [].
Proof.
  revert cur. induction s as [|c s IH]; intros cur; cbn; [discriminate|].
  destruct (Ascii.eqb c sep); [discriminate|apply IH].
Qed.

Lemma split_acc_join sep cur s :
  String.concat (String sep "") (Py.split_acc sep cur s) =
    String.rev cur ++ s.
Proof.
  revert cur. induction s as [|c s IH]; intros cur; cbn [Py.split_acc].
  - cbn. symmetry. apply string_app_nil_r.
  - destruct (Ascii.eqb_spec c sep) as [->|Hne].
    + pose proof (split_acc_nonempty sep "" s) as Hn.
      specialize (IH ""). cbn [String.concat].
      destruct (Py.split_acc sep "" s) as [|y l]; [contradiction|].
      rewrite IH. reflexivity.
    + rewrite IH. unfold String.rev at 1. cbn [String.rev_app].
      rewrite rev_app_append, string_app_assoc. reflexivity.
Qed.

Lemma split_join sep s :
  String.concat (String sep "") (Py.split sep s) = s.
Proof. unfold Py.split. rewrite split_acc_join. reflexivity. Qed.

(** *** The options of the selectbox *)

(** X1: the selectbox never has an empty list of options.  When
    AVAILABLE_MODELS is unset or empty the options are the three fallback
    models; otherwise they are the comma-separated entries as written:
    joined by commas they give the value back, nothing is trimmed or
    dropped. *)
Theorem model_options_cases environ :
  App.model_options environ <> [] /\
  (App.getenv environ "AVAILABLE_MODELS" = None \/
   App.getenv environ "AVAILABLE_MODELS" = Some "" ->
   App.model_options environ = App.fallback_models) /\
  (forall v,
     App.getenv environ "AVAILABLE_MODELS" = Some v ->
     v <> "" ->
     App.model_options environ = Py.split "," v /\
     String.concat "," (App.model_options environ) = v).
Proof.
  assert (forall v,
            App.getenv environ "AVAILABLE_MODELS" = Some v -> v <> "" ->
            App.model_options environ = Py.split "," v) as Hset.
  { intros v Hv Hne. unfold App.model_options, App.getenv_or. rewrite Hv.
    change (default "" (Some v)) with v.
    rewrite bool_decide_eq_false_2; [reflexivity|].
    intros [H|H]; pose proof (split_join "," v) as Hj; rewrite H in Hj;
      cbn in Hj; congruence. }
  assert (App.getenv environ "AVAILABLE_MODELS" = None \/
          App.getenv environ "AVAILABLE_MODELS" = Some "" ->
          App.model_options environ = App.fallback_models) as Hunset.
  { intros [H|H]; unfold App.model_options, App.getenv_or; rewrite H;
      reflexivity. }
  split; [|split].
  - destruct (App.getenv environ "AVAILABLE_MODELS") as [v|] eqn:Hv.
    + destruct (decide (v = "")) as [->|Hne].
      * rewrite Hunset by (right; reflexivity). discriminate.
      * rewrite (Hset v eq_refl Hne). apply split_acc_nonempty.
    + rewrite Hunset by (left; reflexivity). discriminate.
  - exact Hunset.
  - intros v Hv Hne. split; [exact (Hset v Hv Hne)|].
    rewrite (Hset v Hv Hne). apply split_join.
Qed.

Lemma model_options_cases_witness :
  App.model_options Fixture.env_no_key = App.fallback_models /\
  String.concat "," (App.model_options Fixture.env_two_models) = "m1,m2".
Proof.
  split.
  - apply (proj1 (proj2 (model_options_cases Fixture.env_no_key))).
    left. vm_compute. reflexivity.
  - apply (proj2 (proj2 (model_options_cases Fixture.env_two_models)) "m1,m2").
    + vm_compute. reflexivity.
    + discriminate.
Defined.

(** *** The selectbox *)

Lemma find_index_first x l i :
  Py.find_index x l = Some i ->
  forall j, (j < i)%nat -> l !! j <> Some x.
Proof.
  revert i. induction l as [|y l IH]; intros i; cbn; [discriminate|].
  destruct (String.eqb_spec y x) as [->|Hne].
  - intros [= <-] j Hj. lia.
  - destruct (Py.find_index x l) as [i'|]; cbn; [|discriminate].
    intros [= <-] [|j] Hj; cbn.
    + congruence.
    + apply (IH i' eq_refl). lia.
Qed.

(** X2: when the model of the session is among the options, the selectbox
    is drawn with that model pre-selected, at its first position in the
    list; while the user does not touch the widget the session is left
    exactly as it was. *)
Theorem sidebar_config_preselects environ ui s cfg :
  model_config s = Some cfg ->
  model cfg ∈ App.model_options environ ->
  exists i,
    App.model_options environ !! i = Some (model cfg) /\
    (forall j, (j < i)%nat ->
       App.model_options environ !! j <> Some (model cfg)) /\
    outcome (App.sidebar_config environ ui s) = Returns () /\
    shown (App.sidebar_config environ ui s) =
      [SidebarTitle "🤖 LLM Configuration";
       SidebarSelectbox "Select Model" (App.model_options environ) i] /\
    (picked ui = None -> session (App.sidebar_config environ ui s) = s).
Proof.
  intros Hc [i Hi]%find_index_elem_of. exists i.
  rewrite (sidebar_run _ _ _ _ _ Hc Hi). cbn [outcome shown session].
  repeat split.
  - apply find_index_lookup, Hi.
  - apply find_index_first, Hi.
  - intros ->. cbn. destruct s as [l c]. cbn in Hc. subst c.
    destruct cfg. reflexivity.
Qed.

Lemma sidebar_config_preselects_witness :
  exists i,
    App.model_options Fixture.env_key !! i = Some "claude-3-opus-20240229" /\
    session (App.sidebar_config Fixture.env_key Fixture.idle Fixture.one_turn)
      = Fixture.one_turn.
Proof.
  destruct (sidebar_config_preselects Fixture.env_key Fixture.idle
              Fixture.one_turn Fixture.opus)
    as (i & Hi & _ & _ & _ & Hs).
  - reflexivity.
  - vm_compute. apply list_elem_of_here.
  - exists i. split; [exact Hi | apply Hs; reflexivity].
Defined.

(** X3: [sidebar_config] returns only for a session whose configuration
    exists with a model among the options; it then leaves the conversation,
    the temperature and the token limit alone, and the model it stores is
    again one of the options: the entry the user picked when there is one. *)
Theorem sidebar_config_returns environ ui s :
  outcome (App.sidebar_config environ ui s) = Returns () ->
  exists cfg cfg',
    model_config s = Some cfg /\
    model cfg ∈ App.model_options environ /\
    session (App.sidebar_config environ ui s) =
      {| messages := messages s; model_config := Some cfg' |} /\
    model cfg' ∈ App.model_options environ /\
    temperature cfg' = temperature cfg /\
    max_tokens cfg' = max_tokens cfg /\
    (forall j m,
       picked ui = Some j ->
       App.model_options environ !! j = Some m ->
       model cfg' = m).
Proof.
  intros Hret. destruct (model_config s) as [cfg|] eqn:Hc.
  2:{ exfalso. revert Hret. unfold App.sidebar_config. run. discriminate. }
  destruct (Py.find_index (model cfg) (App.model_options environ))
    as [i|] eqn:Hi.
  2:{ exfalso. apply find_index_None in Hi.
      rewrite (sidebar_stale _ _ _ _ Hc Hi) in Hret. discriminate. }
  exists cfg, (select environ ui cfg).
  rewrite (sidebar_run _ _ _ _ _ Hc Hi). cbn [session].
  pose proof (find_index_elem _ _ _ Hi) as Hin.
  repeat split; try assumption.
  - apply chosen_elem_of, Hin.
  - intros j m Hj Hm. cbn. rewrite Hj. cbn. rewrite Hm. reflexivity.
Qed.

Lemma sidebar_config_returns_witness :
  exists cfg',
    session (App.sidebar_config Fixture.env_key Scenario.pick_haiku
               Fixture.one_turn) =
      {| messages := messages Fixture.one_turn; model_config := Some cfg' |} /\
    model cfg' = "claude-3-haiku-20240307".
Proof.
  destruct (sidebar_config_returns Fixture.env_key Scenario.pick_haiku
              Fixture.one_turn)
    as (cfg & cfg' & _ & _ & Hs & _ & _ & _ & Hpick).
  - vm_compute. reflexivity.
  - exists cfg'. split; [exact Hs|].
    apply (Hpick 2%nat); vm_compute; reflexivity.
Defined.

(** *** The initializer *)

(** X4: the initializer never touches an existing conversation or an
    existing configuration, whatever the environment, also when only one of
    the two attributes exists and also when it raises; and it draws
    nothing. *)
Theorem initialize_keeps_session environ s :
  messages (session (App.initialize_session_state environ s)) =
    Some (conversation s) /\
  shown (App.initialize_session_state environ s) = [] /\
  (forall c,
     model_config s = Some c ->
     outcome (App.initialize_session_state environ s) = Returns () /\
     model_config (session (App.initialize_session_state environ s)) =
       Some c).
Proof.
  rewrite initialize_run.
  destruct (model_config s) as [c|].
  - split; [reflexivity|split; [reflexivity|]].
    intros c' [= <-]. split; reflexivity.
  - destruct (App.default_max_tokens environ);
      (split; [reflexivity|split; [reflexivity|]]); intros c' [=].
Qed.

Lemma initialize_keeps_session_witness :
  model_config (session (App.initialize_session_state Fixture.env_bad_tokens
                           Fixture.one_turn)) = Some Fixture.opus.
Proof.
  apply (proj2 (proj2 (initialize_keeps_session Fixture.env_bad_tokens
                         Fixture.one_turn)) Fixture.opus).
  reflexivity.
Defined.

(** *** The token default *)











(** *** Drawing the history *)

Lemma history_events_entered l : entered (history_events l) = role <$> l.
Proof. induction l as [|m l IH]; cbn; [reflexivity|]. f_equal. exact IH. Qed.

Lemma history_events_markdowns l :
  markdowns (history_events l) = content <$> l.
Proof. induction l as [|m l IH]; cbn; [reflexivity|]. f_equal. exact IH. Qed.

Lemma history_events_length l :
  length (history_events l) = (3 * length l)%nat.
Proof.
  induction l as [|m l IH]; [reflexivity|].
  change (history_events (m :: l))
    with ([ChatMessageEnter (role m); Markdown (content m); ChatMessageExit]
          ++ history_events l)%list.
  rewrite length_app, IH. cbn [length]. lia.
Qed.

(** X6: [display_chat_history] opens one chat message per entry of the
    conversation, under the entry's role and with the entry's content, in
    the order of the conversation, three elements per entry; it changes
    nothing in the session and calls no API.  When no conversation exists
    yet it raises [AttributeError] and draws nothing. *)
Theorem display_chat_history_draws s :
  match messages s with
  | Some l =>
      outcome (App.display_chat_history s) = Returns () /\
      session (App.display_chat_history s) = s /\
      entered (shown (App.display_chat_history s)) = role <$> l /\
      markdowns (shown (App.display_chat_history s)) = content <$> l /\
      length (shown (App.display_chat_history s)) = (3 * length l)%nat /\
      api_calls (shown (App.display_chat_history s)) = []
  | None =>
      exists msg,
        App.display_chat_history s =
          {| outcome := Raises (Py.Exc (Py.AttributeError msg));
             session := s; shown := [] |}
  end.
Proof.
  destruct (messages s) as [l|] eqn:Hl.
  - rewrite (display_run l s Hl). cbn [outcome session shown].
    rewrite history_events_entered, history_events_markdowns,
      history_events_length, api_calls_history.
    repeat split.
  - eexists. unfold App.display_chat_history. run. reflexivity.
Qed.

(** *** The client before the session exists *)

(** X7: with a credential but without a conversation or without a
    configuration in the session, the client does not reach the API: the
    [AttributeError] of the missing attribute is caught like any failure,
    the failure text is returned and the session is left as it was. *)
Theorem generate_llm_response_uninitialized environ api prompt s k :
  credential environ k ->
  messages s = None \/ model_config s = None ->
  outcome (App.generate_llm_response environ api prompt s) =
    Returns App.failure_reply /\
  session (App.generate_llm_response environ api prompt s) = s /\
  api_calls (shown (App.generate_llm_response environ api prompt s)) = [].
Proof.
  intros Hk Hmissing. rewrite (generate_with_key _ _ _ _ _ Hk).
  destruct (messages s) as [l|] eqn:Hl.
  - destruct Hmissing as [|Hc]; [discriminate|].
    erewrite try_catches
      by (unfold App.request_completion; run; reflexivity).
    run. rewrite ret_run, prepend_run. repeat split.
  - erewrite try_catches
      by (unfold App.request_completion; run; reflexivity).
    run. rewrite ret_run, prepend_run. repeat split.
Qed.

Lemma generate_llm_response_uninitialized_witness :
  outcome (App.generate_llm_response Fixture.env_key Fixture.two_segments
             "hello" Scenario.uninitialized) = Returns App.failure_reply /\
  api_calls (shown (App.generate_llm_response Fixture.env_key
                      Fixture.two_segments "hello" Scenario.uninitialized))
    = [].
Proof.
  destruct (generate_llm_response_uninitialized Fixture.env_key
              Fixture.two_segments "hello" Scenario.uninitialized "sk-test")
    as (Ho & _ & Hc).
  - split; [vm_compute; reflexivity | discriminate].
  - right. reflexivity.
  - split; [exact Ho | exact Hc].
Defined.

(** *** One pass from a ready session *)

Lemma main_from_ready environ ui api s :
  ready environ s ->
  exists cfg i,
    (forall c, model_config s = Some c -> cfg = c) /\
    Py.find_index (model cfg) (App.model_options environ) = Some i /\
    let cfg' := select environ ui cfg in
    let g := client_run environ ui api (conversation s) cfg' in
    App.main environ ui api s =
      {| outcome :=
           if clear_clicked ui then Raises Py.RerunException else Returns ();
         session :=
           {| messages :=
                Some (if clear_clicked ui then []
                      else conversation s ++ turn ui g)%list;
              model_config := Some cfg' |};
         shown :=
           [SidebarTitle "🤖 LLM Configuration";
            SidebarSelectbox "Select Model" (App.model_options environ) i;
            Title "💬 LLM Chat Interface"]
           ++ history_events (conversation s)
           ++ [TextInput "You:" "input"]
           ++ (if bool_decide (typed ui = "") then []
               else turn_events (typed ui) g)
           ++ [SidebarMarkdown "---"; SidebarButton "🗑️ Clear Chat History"]
           ++ (if clear_clicked ui then []
               else [SidebarMarkdown App.about_panel]) |}.
Proof.
  intros Hready.
  destruct (ready_start _ _ Hready) as (cfg & i & Hinit & Hi).
  exists cfg, i. split; [|split; [exact Hi|]].
  - intros c Hc. rewrite initialize_run, Hc in Hinit. congruence.
  - apply (main_run _ _ _ _ _ _ _ Hinit Hi).
Qed.

(** X8: a pass in which nothing is typed and the clear button is not
    pressed ends normally, leaves the conversation as it was, calls no API,
    and draws the page down to the About panel. *)
Theorem idle_pass environ ui api s :
  ready environ s ->
  typed ui = "" ->
  clear_clicked ui = false ->
  outcome (App.main environ ui api s) = Returns () /\
  messages (session (App.main environ ui api s)) = Some (conversation s) /\
  api_calls (shown (App.main environ ui api s)) = [] /\
  last (shown (App.main environ ui api s)) =
    Some (SidebarMarkdown App.about_panel).
Proof.
  intros Hready Hp Hclear.
  destruct (main_from_ready environ ui api s Hready)
    as (cfg & i & _ & _ & ->).
  unfold turn. rewrite Hp, Hclear. cbn [outcome session shown messages].
  rewrite bool_decide_eq_true_2 by reflexivity.
  rewrite app_nil_r. repeat split.
  - rewrite !api_calls_app, api_calls_history. reflexivity.
  - rewrite !(assoc_L (++)), last_app. reflexivity.
Qed.

Lemma idle_pass_witness :
  messages (session (App.main Fixture.env_key Fixture.idle
                       Fixture.two_segments Fixture.one_turn)) =
    messages Fixture.one_turn /\
  api_calls (shown (App.main Fixture.env_key Fixture.idle
                      Fixture.two_segments Fixture.one_turn)) = [].
Proof.
  destruct (idle_pass Fixture.env_key Fixture.idle Fixture.two_segments
              Fixture.one_turn) as (_ & Hm & Hc & _).
  - vm_compute. apply list_elem_of_here.
  - reflexivity.
  - reflexivity.
  - split; [exact Hm | exact Hc].
Defined.

(** X9: whatever the environment and the API do, a pass that submits a
    text without clearing ends normally and extends the conversation by
    exactly two entries: the user entry with the typed text and one
    assistant entry, whose content is also the last thing drawn in the
    assistant's chat message. *)
Theorem submitting_pass environ ui api s :
  ready environ s ->
  submits ui ->
  outcome (App.main environ ui api s) = Returns () /\
  exists reply,
    messages (session (App.main environ ui api s)) =
      Some (conversation s
            ++ [user_message (typed ui); assistant_message reply])%list /\
    last (markdowns (shown (App.main environ ui api s))) = Some reply.
Proof.
  intros Hready [Hp Hclear].
  destruct (main_from_ready environ ui api s Hready)
    as (cfg & i & _ & _ & ->).
  unfold turn. rewrite Hclear. cbn [outcome session shown messages].
  rewrite bool_decide_eq_false_2 by exact Hp.
  split; [reflexivity|]. eexists. split; [reflexivity|].
  unfold markdowns, turn_events.
  rewrite !bind_app. cbn [mbind list_bind app].
  rewrite app_nil_r, app_comm_cons, (assoc_L (++)). apply last_snoc.
Qed.

Lemma submitting_pass_witness :
  exists reply,
    messages (session (App.main Fixture.env_no_key (Fixture.says "bye")
                         Fixture.two_segments Fixture.one_turn)) =
      Some [user_message "hello"; assistant_message "hi there";
            user_message "bye"; assistant_message reply].
Proof.
  destruct (submitting_pass Fixture.env_no_key (Fixture.says "bye")
              Fixture.two_segments Fixture.one_turn)
    as (_ & reply & Hm & _).
  - vm_compute. apply list_elem_of_here.
  - split; [discriminate | reflexivity].
  - exists reply. exact Hm.
Defined.

(** X10: without a credential a submitted turn is still recorded: the
    assistant entry is the missing-key text, and the pass calls no API. *)
Theorem pass_without_credential environ ui api s :
  ready environ s ->
  submits ui ->
  App.getenv environ "ANTHROPIC_API_KEY" = None \/
  App.getenv environ "ANTHROPIC_API_KEY" = Some "" ->
  messages (session (App.main environ ui api s)) =
    Some (conversation s
          ++ [user_message (typed ui);
              assistant_message App.missing_key_reply])%list /\
  api_calls (shown (App.main environ ui api s)) = [].
Proof.
  intros Hready [Hp Hclear] Hkey.
  destruct (main_from_ready environ ui api s Hready)
    as (cfg & i & _ & _ & ->).
  unfold turn, client_run. rewrite Hclear.
  rewrite (generate_missing_key _ _ _ _ Hkey).
  cbn [outcome session shown messages].
  rewrite bool_decide_eq_false_2 by exact Hp.
  split; [reflexivity|].
  rewrite !api_calls_app, api_calls_history. reflexivity.
Qed.

Lemma pass_without_credential_witness :
  messages (session (App.main Fixture.env_no_key (Fixture.says "bye")
                       Fixture.two_segments Fixture.one_turn)) =
    Some [user_message "hello"; assistant_message "hi there";
          user_message "bye"; assistant_message App.missing_key_reply].
Proof.
  apply (pass_without_credential Fixture.env_no_key (Fixture.says "bye")
           Fixture.two_segments Fixture.one_turn).
  - vm_compute. apply list_elem_of_here.
  - split; [discriminate | reflexivity].
  - left. vm_compute. reflexivity.
Defined.

(** X11: when a text is typed and the clear button is pressed in the same
    pass, the text is still sent: the API is called once, with the old
    conversation followed by the new user message, and the submitted text
    is drawn; then the conversation is emptied, so the turn is not kept. *)
Theorem submit_and_clear_pass environ ui api s k :
  ready environ s ->
  credential environ k ->
  typed ui <> "" ->
  clear_clicked ui = true ->
  (exists cfg,
     api_calls (shown (App.main environ ui api s)) =
       [(k, request_of cfg
              (conversation s ++ [user_message (typed ui)])%list)]) /\
  Markdown (typed ui) ∈ shown (App.main environ ui api s) /\
  messages (session (App.main environ ui api s)) = Some [] /\
  outcome (App.main environ ui api s) = Raises Py.RerunException.
Proof.
  intros Hready Hk Hp Hclear.
  destruct (main_from_ready environ ui api s Hready)
    as (cfg & i & _ & _ & ->).
  rewrite Hclear. cbn [outcome session shown messages].
  rewrite bool_decide_eq_false_2 by exact Hp.
  split; [|split; [|split; reflexivity]].
  - exists (select environ ui cfg).
    rewrite !api_calls_app, api_calls_history, turn_events_api_calls.
    unfold client_run.
    erewrite generate_run by (first [exact Hk | reflexivity]).
    destruct (completion api k _); reflexivity.
  - unfold turn_events. rewrite !elem_of_app. right. right. right. left. left.
    apply list_elem_of_further, list_elem_of_here.
Qed.

Lemma submit_and_clear_pass_witness :
  length (api_calls (shown (App.main Fixture.env_key
                              Scenario.submit_and_clear Fixture.two_segments
                              Fixture.one_turn))) = 1%nat /\
  messages (session (App.main Fixture.env_key Scenario.submit_and_clear
                       Fixture.two_segments Fixture.one_turn)) = Some [].
Proof.
  destruct (submit_and_clear_pass Fixture.env_key Scenario.submit_and_clear
              Fixture.two_segments Fixture.one_turn "sk-test")
    as ((cfg & Hcalls) & _ & Hm & _).
  - vm_compute. apply list_elem_of_here.
  - split; [vm_compute; reflexivity | discriminate].
  - discriminate.
  - reflexivity.
  - split; [rewrite Hcalls; reflexivity | exact Hm].
Defined.

(** *** Pass after pass *)

Lemma main_keeps_ready environ ui api s :
  ready environ s ->
  ready environ (session (App.main environ ui api s)) /\
  crashed (outcome (App.main environ ui api s)) = false.
Proof.
  intros Hready.
  destruct (main_from_ready environ ui api s Hready)
    as (cfg & i & _ & Hi & ->).
  cbn [session outcome]. split.
  - apply select_ready. eapply find_index_elem, Hi.
  - destruct (clear_clicked ui); reflexivity.
Qed.

(** X12: once a session is past the sidebar it stays so: whatever the user
    types, picks or clears and whatever the API does in the passes that
    follow (the environment unchanged), no pass ends with an uncaught
    [Exception], and the model stays one of the options. *)
Theorem ready_session_never_crashes environ passes s :
  ready environ s ->
  Forall (fun o => crashed o = false) (pass_outcomes environ passes s) /\
  ready environ (run_passes environ passes s).
Proof.
  revert s. induction passes as [|[ui api] passes IH]; intros s Hready.
  - split; [constructor | exact Hready].
  - destruct (main_keeps_ready environ ui api s Hready) as [Hr Hc].
    destruct (IH _ Hr) as [Hall Hfinal].
    cbn [pass_outcomes run_passes]. split; [|exact Hfinal].
    constructor; assumption.
Qed.

Lemma ready_session_never_crashes_witness :
  Forall (fun o => crashed o = false)
    (pass_outcomes Fixture.env_key
       [(Fixture.says "hello", stub_api (Failing Fixture.timeout));
        (Fixture.clear, Fixture.two_segments);
        (Scenario.pick_haiku, Fixture.two_segments)]
       Fixture.fresh).
Proof.
  destruct (ready_session_never_crashes Fixture.env_key
              [(Fixture.says "hello", stub_api (Failing Fixture.timeout));
               (Fixture.clear, Fixture.two_segments);
               (Scenario.pick_haiku, Fixture.two_segments)]
              Fixture.fresh) as [H _].
  - split.
    + exists 1000. vm_compute. reflexivity.
    + vm_compute. apply list_elem_of_here.
  - exact H.
Defined.

Lemma main_keeps_settings environ ui api s cfg :
  ready environ s ->
  model_config s = Some cfg ->
  exists cfg',
    model_config (session (App.main environ ui api s)) = Some cfg' /\
    temperature cfg' = temperature cfg /\
    max_tokens cfg' = max_tokens cfg.
Proof.
  intros Hready Hc.
  destruct (main_from_ready environ ui api s Hready)
    as (cfg0 & i & Hsame & _ & ->).
  rewrite (Hsame cfg Hc). eexists. cbn [session model_config].
  split; [reflexivity|]. split; reflexivity.
Qed.

(** X13: the temperature and the token limit of a session are fixed: no
    sequence of passes, whatever is typed, picked or cleared, changes
    them; only the model can change. *)
Theorem settings_fixed_for_session environ passes s cfg :
  ready environ s ->
  model_config s = Some cfg ->
  exists cfg',
    model_config (run_passes environ passes s) = Some cfg' /\
    temperature cfg' = temperature cfg /\
    max_tokens cfg' = max_tokens cfg.
Proof.
  revert s cfg. induction passes as [|[ui api] passes IH];
    intros s cfg Hready Hc.
  - exists cfg. repeat split. exact Hc.
  - destruct (main_keeps_settings environ ui api s cfg Hready Hc)
      as (cfg1 & Hc1 & Ht & Hm).
    destruct (main_keeps_ready environ ui api s Hready) as [Hr _].
    destruct (IH _ cfg1 Hr Hc1) as (cfg' & Hc' & Ht' & Hm').
    exists cfg'. cbn [run_passes]. repeat split; [exact Hc'| |]; congruence.
Qed.

Lemma settings_fixed_for_session_witness :
  exists cfg',
    model_config
      (run_passes Fixture.env_key
         [(Scenario.pick_haiku, Fixture.two_segments);
          (Fixture.clear, Fixture.two_segments)]
         Fixture.one_turn) = Some cfg' /\
    temperature cfg' = 7 # 10 /\
    max_tokens cfg' = 1000.
Proof.
  apply (settings_fixed_for_session Fixture.env_key
           [(Scenario.pick_haiku, Fixture.two_segments);
            (Fixture.clear, Fixture.two_segments)]
           Fixture.one_turn Fixture.opus).
  - vm_compute. apply list_elem_of_here.
  - reflexivity.
Defined.

(** X14: every pass from a ready session, whatever the widgets hold, draws
    the sidebar, the title and then the whole conversation as stored at the
    start of the pass, entry by entry, before the text input. *)
Theorem pass_draws_history environ ui api s :
  ready environ s ->
  exists i rest,
    shown (App.main environ ui api s) =
      ([SidebarTitle "🤖 LLM Configuration";
        SidebarSelectbox "Select Model" (App.model_options environ) i;
        Title "💬 LLM Chat Interface"]
       ++ history_events (conversation s)
       ++ TextInput "You:" "input" :: rest)%list.
Proof.
  intros Hready.
  destruct (main_from_ready environ ui api s Hready)
    as (cfg & i & _ & _ & ->).
  eexists i, _. reflexivity.
Qed.

Lemma pass_draws_history_witness :
  exists i rest,
    shown (App.main Fixture.env_key (Fixture.says "bye") Fixture.two_segments
             Fixture.one_turn) =
      ([SidebarTitle "🤖 LLM Configuration";
        SidebarSelectbox "Select Model" (App.model_options Fixture.env_key) i;
        Title "💬 LLM Chat Interface"]
       ++ history_events (conversation Fixture.one_turn)
       ++ TextInput "You:" "input" :: rest)%list.
Proof.
  apply (pass_draws_history Fixture.env_key (Fixture.says "bye")
           Fixture.two_segments Fixture.one_turn).
  vm_compute. apply list_elem_of_here.
Defined.

(** X15: after a clearing pass the conversation starts over: the next
    submitting pass sends a request that holds the new user message only,
    and leaves a conversation of exactly that one turn. *)
Theorem clear_then_submit environ k ui1 api1 ui2 api2 s :
  ready environ s ->
  credential environ k ->
  clear_clicked ui1 = true ->
  submits ui2 ->
  (exists cfg,
     api_calls (shown (App.main environ ui2 api2
                         (session (App.main environ ui1 api1 s)))) =
       [(k, request_of cfg [user_message (typed ui2)])]) /\
  (exists reply,
     messages (run_passes environ [(ui1, api1); (ui2, api2)] s) =
       Some [user_message (typed ui2); assistant_message reply]).
Proof.
  intros Hready Hk Hclear1 [Hp Hclear2].
  destruct (main_keeps_ready environ ui1 api1 s Hready) as [Hready1 _].
  cbn [run_passes].
  assert (conversation (session (App.main environ ui1 api1 s)) = []) as Hc.
  { destruct (main_from_ready environ ui1 api1 s Hready)
      as (cfg & i & _ & _ & ->).
    rewrite Hclear1. reflexivity. }
  destruct (main_from_ready environ ui2 api2 _ Hready1)
    as (cfg & i & _ & _ & ->).
  rewrite Hc, Hclear2. unfold turn.
  cbn [outcome session shown messages].
  rewrite bool_decide_eq_false_2 by exact Hp. split.
  - exists (select environ ui2 cfg).
    rewrite !api_calls_app, turn_events_api_calls. unfold client_run.
    erewrite generate_run by (first [exact Hk | reflexivity]).
    destruct (completion api2 k _); reflexivity.
  - eexists. reflexivity.
Qed.

Lemma clear_then_submit_witness :
  exists reply,
    messages (run_passes Fixture.env_key
                [(Fixture.clear, Fixture.two_segments);
                 (Fixture.says "bye", Fixture.two_segments)]
                Fixture.one_turn) =
      Some [user_message "bye"; assistant_message reply].
Proof.
  apply (clear_then_submit Fixture.env_key "sk-test" Fixture.clear
           Fixture.two_segments (Fixture.says "bye") Fixture.two_segments
           Fixture.one_turn).
  - vm_compute. apply list_elem_of_here.
  - split; [vm_compute; reflexivity | discriminate].
  - reflexivity.
  - split; [discriminate | reflexivity].
Defined.

(** X16: a model picked in the selectbox takes effect in the same pass: the
    request of a turn submitted in that pass names the picked model, and
    the session keeps it. *)
Theorem picked_model_is_requested environ ui api s k j m :
  ready environ s ->
  credential environ k ->
  typed ui <> "" ->
  picked ui = Some j ->
  App.model_options environ !! j = Some m ->
  (exists req,
     api_calls (shown (App.main environ ui api s)) = [(k, req)] /\
     req_model req = m) /\
  model <$> model_config (session (App.main environ ui api s)) = Some m.
Proof.
  intros Hready Hk Hp Hj Hm.
  destruct (main_from_ready environ ui api s Hready)
    as (cfg & i & _ & _ & ->).
  cbn [outcome session shown messages model_config].
  rewrite bool_decide_eq_false_2 by exact Hp.
  assert (model (select environ ui cfg) = m) as Hsel.
  { cbn. rewrite Hj. cbn. rewrite Hm. reflexivity. }
  split.
  - eexists. split.
    + rewrite !api_calls_app, api_calls_history, turn_events_api_calls.
      unfold client_run.
      erewrite generate_run by (first [exact Hk | reflexivity]).
      destruct (completion api k _); destruct (clear_clicked ui);
        reflexivity.
    + exact Hsel.
  - cbn. rewrite <- Hsel. reflexivity.
Qed.

Lemma picked_model_is_requested_witness :
  model <$> model_config
              (session (App.main Fixture.env_key Scenario.pick_haiku
                          Fixture.two_segments Fixture.one_turn)) =
    Some "claude-3-haiku-20240307".
Proof.
  apply (picked_model_is_requested Fixture.env_key Scenario.pick_haiku
           Fixture.two_segments Fixture.one_turn "sk-test" 2%nat
           "claude-3-haiku-20240307").
  - vm_compute. apply list_elem_of_here.
  - split; [vm_compute; reflexivity | discriminate].
  - discriminate.
  - reflexivity.
  - vm_compute. reflexivity.
Defined.

(** *** Passes that crash *)

Lemma main_not_ready_run environ ui api s :
  ~ ready environ s ->
  exists e evs,
    App.main environ ui api s =
      {| outcome := Raises (Py.Exc e);
         session := session (App.initialize_session_state environ s);
         shown := evs |} /\
    api_calls evs = [].
Proof.
  unfold ready, App.main. intros Hn.
  pose proof (initialize_run environ s) as Hinit.
  destruct (model_config s) as [c|].
  - erewrite bind_returns by exact Hinit.
    erewrite bind_raises by (eapply sidebar_stale; [reflexivity | exact Hn]).
    rewrite Hinit, prepend_run. eexists _, _. split; reflexivity.
  - destruct (App.default_max_tokens environ) as [e|n].
    + erewrite bind_raises by exact Hinit. rewrite Hinit.
      eexists _, _. split; reflexivity.
    + erewrite bind_returns by exact Hinit.
      erewrite bind_raises.
      2:{ eapply sidebar_stale; [reflexivity|]. cbn [model].
          intros Hin. apply Hn. split; [exists n; reflexivity | exact Hin]. }
      rewrite Hinit, prepend_run. eexists _, _. split; reflexivity.
Qed.

Lemma initialize_conversation environ s :
  messages (session (App.initialize_session_state environ s)) =
    Some (conversation s).
Proof.
  rewrite initialize_run. destruct (model_config s); [reflexivity|].
  destruct (App.default_max_tokens environ); reflexivity.
Qed.

(** X17: a pass ends with an uncaught [Exception] exactly when the session
    is not ready, that is when a missing configuration cannot be created
    because the token default does not parse, or when the model is not
    among the options; such a pass stops in the initializer or the sidebar:
    it calls no API and keeps the conversation. *)
Theorem pass_crashes_iff_not_ready environ ui api s :
  (crashed (outcome (App.main environ ui api s)) = true <->
   ~ ready environ s) /\
  (~ ready environ s ->
   api_calls (shown (App.main environ ui api s)) = [] /\
   messages (session (App.main environ ui api s)) = Some (conversation s)).
Proof.
  split; [split|].
  - intros Hc Hready.
    destruct (main_keeps_ready environ ui api s Hready) as [_ H].
    congruence.
  - intros Hn.
    destruct (main_not_ready_run environ ui api s Hn) as (e & evs & -> & _).
    reflexivity.
  - intros Hn.
    destruct (main_not_ready_run environ ui api s Hn) as (e & evs & -> & Hc).
    cbn [shown session]. split; [exact Hc | apply initialize_conversation].
Qed.

Lemma pass_crashes_iff_not_ready_witness :
  crashed (outcome (App.main Fixture.env_two_models Fixture.idle
                      Fixture.two_segments Fixture.stale)) = true /\
  api_calls (shown (App.main Fixture.env_two_models Fixture.idle
                      Fixture.two_segments Fixture.stale)) = [].
Proof.
  assert (~ ready Fixture.env_two_models Fixture.stale) as Hn.
  { vm_compute. intros H. apply list_elem_of_In in H. cbn in H.
    destruct H as [H|[H|[]]]; discriminate H. }
  destruct (pass_crashes_iff_not_ready Fixture.env_two_models Fixture.idle
              Fixture.two_segments Fixture.stale) as [Hiff Hrest].
  split; [apply Hiff, Hn | apply Hrest, Hn].
Defined.

(** *** Growth of the conversation *)

Lemma main_submit_grows environ ui api s :
  ready environ s ->
  submits ui ->
  exists reply,
    conversation (session (App.main environ ui api s)) =
      (conversation s
       ++ [user_message (typed ui); assistant_message reply])%list.
Proof.
  intros Hready [Hp Hclear].
  destruct (main_from_ready environ ui api s Hready)
    as (cfg & i & _ & _ & ->).
  unfold turn. rewrite Hclear. cbn [session]. unfold conversation at 1.
  cbn [messages default]. rewrite bool_decide_eq_false_2 by exact Hp.
  eexists. reflexivity.
Qed.

(** X18: with any API and with or without a credential, N passes that each
    submit a text and never clear only append to the conversation: what
    was there stays in front, and exactly 2N entries are added, in turn a
    user entry with the text typed in that pass and an assistant entry. *)
Theorem submissions_append environ passes s :
  ready environ s ->
  Forall (fun p => submits p.1) passes ->
  exists replies,
    length replies = length passes /\
    conversation (run_passes environ passes s) =
      (conversation s
       ++ (zip passes replies ≫= fun pr =>
             [user_message (typed pr.1.1); assistant_message pr.2]))%list /\
    length (conversation (run_passes environ passes s)) =
      (length (conversation s) + 2 * length passes)%nat.
Proof.
  intros Hready Hall. revert s Hready.
  induction Hall as [|[ui api] passes Hsub _ IH]; intros s Hready.
  - exists []. cbn. rewrite app_nil_r. repeat split. lia.
  - cbn [fst] in Hsub.
    destruct (main_submit_grows environ ui api s Hready Hsub) as [r Hr].
    destruct (main_keeps_ready environ ui api s Hready) as [Hready' _].
    destruct (IH _ Hready') as (rs & Hlen & Hconv & Hn).
    exists (r :: rs). cbn [run_passes length].
    split; [congruence|]. split.
    + rewrite Hconv, Hr, <- (assoc_L (++)). reflexivity.
    + rewrite Hn, Hr, length_app. cbn [length]. lia.
Qed.

Lemma submissions_append_witness :
  length (conversation
            (run_passes Fixture.env_no_key
               [(Fixture.says "bye", Fixture.two_segments);
                (Fixture.says "again", stub_api (Failing Fixture.timeout))]
               Fixture.one_turn)) = 6%nat.
Proof.
  destruct (submissions_append Fixture.env_no_key
              [(Fixture.says "bye", Fixture.two_segments);
               (Fixture.says "again", stub_api (Failing Fixture.timeout))]
              Fixture.one_turn) as (replies & _ & _ & Hn).
  - vm_compute. apply list_elem_of_here.
  - repeat constructor; discriminate.
  - rewrite Hn. reflexivity.
Defined.
